(** * word-list-grabber: the AnkiConnect client and the two list pipelines

    A shallow embedding of [main.py] (word list) and [sentences.py]
    (sentence list), followed by the properties proved about them.

    Layout: the Python data the scripts handle ([Py]), the logging and
    exception monad ([Run]), the AnkiConnect client both scripts define with
    the same text ([AnkiConnect]), one module per script ([Main],
    [Sentences]), the vocabulary of the statements ([Spec]), then the
    lemmas and theorems. *)

From Stdlib Require Import List String Ascii ZArith Bool Lia PrimFloat.
From Stdlib Require Import Sorting.Sorted Sorting.Permutation.
From Stdlib Require Import DecimalString.
Import ListNotations.

Local Open Scope string_scope.
Local Open Scope list_scope.

Set Warnings "-register-all".

(** ** Python data *)

Module Py.

(** The line feed written by ["\n"] and the double quote of [deck:"..."]. *)
Definition LF : string := String "010"%char EmptyString.
Definition DQUOTE : string := String "034"%char EmptyString.

(** What [response.json()] hands back: [None], [bool], [int], [float], [str],
    [list] and [dict].  A [str] is held as the bytes of its UTF-8 text, whose
    byte order is the code point order Python compares by; a [dict] is the
    list of its items in insertion order, looked up from the front. *)
Inductive json : Type :=
| JNull
| JBool (b : bool)
| JInt (n : Z)
| JFloat (f : float)
| JStr (s : string)
| JArr (l : list json)
| JObj (m : list (string * json)).

(** The subclasses of [Exception] the scripts raise or meet.
    [requests_ConnectionError] is any instance of
    [requests.exceptions.ConnectionError]; [requests_RequestException] any
    other instance of [requests.exceptions.RequestException] (HTTP status,
    timeout, undecodable body, ...).  [ConnectionError] is the builtin one.
    The string is [str(e)]. *)
Inductive exn : Type :=
| requests_ConnectionError (msg : string)
| requests_RequestException (msg : string)
| ConnectionError (msg : string)
| RuntimeError (msg : string)
| KeyError (key : string)
| ValueError (msg : string)
| TypeError
| AttributeError
| OtherException (class msg : string).

(** The result of evaluating a piece of Python: a value, a raised exception,
    or [OutOfModel] where the run leaves the data model (a tag or a field
    value that is not text, the characters of a [str]): Python goes on
    there, the model makes no statement. *)
Inductive res (A : Type) : Type :=
| Ok (a : A)
| Raise (e : exn)
| OutOfModel.
Arguments Ok {A} a.
Arguments Raise {A} e.
Arguments OutOfModel {A}.

Definition res_bind {A B} (r : res A) (k : A -> res B) : res B :=
  match r with
  | Ok a => k a
  | Raise e => Raise e
  | OutOfModel => OutOfModel
  end.

(** [bool(v)], the test behind [if v] and [not v]. *)
Definition truthy (v : json) : bool :=
  match v with
  | JNull => false
  | JBool b => b
  | JInt n => negb (n =? 0)%Z
  | JFloat f => negb (PrimFloat.eqb f 0%float)
  | JStr s => negb (s =? "")
  | JArr l => match l with [] => false | _ :: _ => true end
  | JObj m => match m with [] => false | _ :: _ => true end
  end.

(** Lookup in the items of a [dict]. *)
Fixpoint assoc {V} (k : string) (m : list (string * V)) : option V :=
  match m with
  | [] => None
  | (k', v) :: rest => if k' =? k then Some v else assoc k rest
  end.

(** [v[k]] for a [str] key [k]: only a [dict] can be subscripted by one. *)
Definition subscript (v : json) (k : string) : res json :=
  match v with
  | JObj m => match assoc k m with Some x => Ok x | None => Raise (KeyError k) end
  | _ => Raise TypeError
  end.

(** [v.get(k)]: [None] for a key the [dict] lacks. *)
Definition get (v : json) (k : string) : res json :=
  match v with
  | JObj m => match assoc k m with Some x => Ok x | None => Ok JNull end
  | _ => Raise AttributeError
  end.

(** [list(v.keys())]. *)
Definition keys (v : json) : res (list string) :=
  match v with
  | JObj m => Ok (map fst m)
  | _ => Raise AttributeError
  end.

(** [len(v)]. *)
Definition len (v : json) : res nat :=
  match v with
  | JArr l => Ok (List.length l)
  | JObj m => Ok (List.length m)
  | JStr _ => OutOfModel
  | _ => Raise TypeError
  end.

(** The items [for x in v] runs through. *)
Definition iter (v : json) : res (list json) :=
  match v with
  | JArr l => Ok l
  | JObj m => Ok (map (fun kv => JStr (fst kv)) m)
  | JStr s => if s =? "" then Ok [] else OutOfModel
  | _ => Raise TypeError
  end.

(** [v == s] for a [str] literal [s]. *)
Definition eq_str (v : json) (s : string) : bool :=
  match v with
  | JStr s' => s' =? s
  | _ => false
  end.

(** A value used as text: anything else leaves the model. *)
Definition text (v : json) : res string :=
  match v with
  | JStr s => Ok s
  | _ => OutOfModel
  end.

(** [x in names] and [names.index(x)]. *)
Definition contains (x : string) (names : list string) : bool :=
  existsb (String.eqb x) names.

Fixpoint index (x : string) (names : list string) : res nat :=
  match names with
  | [] => Raise (ValueError ("'" ++ x ++ "' is not in list"))
  | y :: rest => if y =? x then Ok 0 else res_bind (index x rest) (fun i => Ok (S i))
  end.

(** [str(n)] for a length. *)
Definition str_nat (n : nat) : string := NilEmpty.string_of_uint (Nat.to_uint n).

(** [sorted(l)] on a list of [str]: insertion from the right keeps equal
    items in their order, as Python's stable sort does. *)
Fixpoint insert (x : string) (l : list string) : list string :=
  match l with
  | [] => [x]
  | y :: rest => if String.leb x y then x :: l else y :: insert x rest
  end.

Definition sorted (l : list string) : list string :=
  fold_right insert [] l.

(** [list(dict.fromkeys(l))]: each key once, at its first place.
    [fromkeys_step d k] sets the key [k] in the keys [d] so far. *)
Definition fromkeys_step (d : list string) (k : string) : list string :=
  if contains k d then d else d ++ [k].

Definition fromkeys (l : list string) : list string :=
  fold_left fromkeys_step l [].

(** A [dict] from [str] to [list] of [str], as its items in insertion
    order. *)
Definition dict : Type := list (string * list string).

Definition dict_contains (k : string) (d : dict) : bool :=
  existsb (fun kv => fst kv =? k) d.

(** [d[k] = v]: in place for a key of [d], at the end for a new one. *)
Fixpoint dict_setitem (k : string) (v : list string) (d : dict) : dict :=
  match d with
  | [] => [(k, v)]
  | (k', v') :: rest =>
      if k' =? k then (k', v) :: rest else (k', v') :: dict_setitem k v rest
  end.

Definition dict_getitem (k : string) (d : dict) : res (list string) :=
  match assoc k d with
  | Some v => Ok v
  | None => Raise (KeyError k)
  end.

(** [d[k].append(w)]: [d[k]] is looked up, then the argument [w] is
    evaluated, then the list is extended. *)
Definition dict_append (k : string) (w : res string) (d : dict) : res dict :=
  res_bind (dict_getitem k d) (fun ws =>
  res_bind w (fun w => Ok (dict_setitem k (ws ++ [w]) d))).

(** Files by path; [open(path, "w")] followed by the writes of [content]
    leaves the file holding exactly [content]. *)
Definition filesystem : Type := string -> option string.

Definition write_file (path content : string) (fs : filesystem) : filesystem :=
  fun p => if p =? path then Some content else fs p.

Definition read_file (path : string) (fs : filesystem) : option string := fs path.

End Py.

(** ** Runs: the records logged and the result *)

Module Run.
Import Py.

Inductive level : Type := DEBUG | INFO | WARNING | ERROR.

(** One call of a [logger] method.  [message] is the text up to an
    exception the f-string ends with; that exception is [exc_info] (its
    [str] and, with [exc_info=True], its traceback follow in the output). *)
Record record : Type := mk_record {
  levelname : level;
  message : string;
  exc_info : option exn
}.

(** [logging.basicConfig(level=logging.INFO)]: what reaches the handler. *)
Definition enabled (r : record) : bool :=
  match levelname r with
  | DEBUG => false
  | _ => true
  end.

Definition emitted (log : list record) : list record := filter enabled log.

Definition is_level (l : level) (r : record) : bool :=
  match levelname r, l with
  | DEBUG, DEBUG | INFO, INFO | WARNING, WARNING | ERROR, ERROR => true
  | _, _ => false
  end.

(** A computation: the logger calls made, in order, and how it ended. *)
Definition M (A : Type) : Type := (list record * res A)%type.

Definition ret {A} (a : A) : M A := ([], Ok a).
Definition raise {A} (e : exn) : M A := ([], Raise e).
Definition lift {A} (r : res A) : M A := ([], r).

Definition bind {A B} (m : M A) (k : A -> M B) : M B :=
  match m with
  | (log, Ok a) => let (log', r) := k a in (log ++ log', r)
  | (log, Raise e) => (log, Raise e)
  | (log, OutOfModel) => (log, OutOfModel)
  end.

(** [try: m  except ... as e: handler e]; a handler passes on what its
    [except] clauses do not name by raising it again. *)
Definition try_except {A} (m : M A) (handler : exn -> M A) : M A :=
  match m with
  | (log, Raise e) => let (log', r) := handler e in (log ++ log', r)
  | _ => m
  end.

Definition logger (l : level) (msg : string) : M unit :=
  ([mk_record l msg None], Ok tt).

Definition logger_exc (l : level) (msg : string) (e : exn) : M unit :=
  ([mk_record l msg (Some e)], Ok tt).

(** How the process ends: [exit(code)], the end of the script, a
    traceback for an exception nothing caught, or a run that left the
    model. *)
Inductive termination : Type :=
| SystemExit (code : Z)
| Finished
| Uncaught (e : exn)
| Unknown.

Definition exit_status (t : termination) : option Z :=
  match t with
  | SystemExit code => Some code
  | Finished => Some 0%Z
  | Uncaught _ => Some 1%Z
  | Unknown => None
  end.

Definition log_of {A} (m : M A) : list record := fst m.
Definition result_of {A} (m : M A) : res A := snd m.

Declare Scope run_scope.
Delimit Scope run_scope with run.
Notation "x <- m ;; k" := (bind m (fun x => k))
  (at level 61, m at next level, right associativity) : run_scope.
Notation "m ;; k" := (bind m (fun _ => k))
  (at level 61, right associativity) : run_scope.

End Run.

(** ** The AnkiConnect client ([invoke] and its three callers, the same text
    in [main.py] and [sentences.py]) *)

Module AnkiConnect.
Import Py Run.
Local Open Scope run_scope.

(** What [requests.post] returns: the outcome of [raise_for_status()] and
    of [json()]. *)
Record response : Type := mk_response {
  raise_for_status : res unit;
  response_json : res json
}.

(** The world a run meets: [post url body] is [requests.post(url,
    json=body)], and [repr v] Python's rendering of a value that is not a
    [str] ([None], [True], [12], [[1, 2]], ...). *)
Record env : Type := mk_env {
  post : string -> json -> res response;
  repr : json -> string
}.

Definition ANKI_CONNECT_URL : string := "http://localhost:8765".

Section Client.
Variable E : env.

(** [str(v)], what an f-string puts for [{v}]. *)
Definition str (v : json) : string :=
  match v with
  | JStr s => s
  | _ => repr E v
  end.

(** The JSON body of a request; [params] is [JNull] for [None]. *)
Definition request (action : string) (params : json) : json :=
  JObj [("action", JStr action);
        ("version", JInt 6);
        ("params", if truthy params then params else JObj [])].

Definition invoke (action : string) (params : json) : M json :=
  try_except
    (logger DEBUG ("Invoking AnkiConnect action: " ++ action
                   ++ " with params: " ++ str params) ;;
     response <- lift (post E ANKI_CONNECT_URL (request action params)) ;;
     lift (raise_for_status response) ;;
     result <- lift (response_json response) ;;
     error <- lift (get result "error") ;;
     if truthy error then
       error1 <- lift (subscript result "error") ;;
       logger ERROR ("AnkiConnect action '" ++ action ++ "' failed: " ++ str error1) ;;
       error2 <- lift (subscript result "error") ;;
       raise (RuntimeError ("AnkiConnect error: " ++ str error2))
     else
       logger DEBUG ("AnkiConnect action '" ++ action ++ "' completed successfully") ;;
       lift (subscript result "result"))
    (fun e =>
       match e with
       | requests_ConnectionError _ =>
           logger ERROR "Failed to connect to AnkiConnect - check if Anki is running with AnkiConnect addon" ;;
           raise (ConnectionError
                    "Could not connect to AnkiConnect. Is Anki running with AnkiConnect addon installed?")
       | requests_RequestException msg =>
           logger ERROR ("Request to AnkiConnect failed: " ++ msg) ;;
           raise (RuntimeError ("Request failed: " ++ msg))
       | _ => raise e
       end).

Definition find_notes (deck_name : string) : M json :=
  logger DEBUG ("Searching for notes in deck: " ++ deck_name) ;;
  invoke "findNotes" (JObj [("query", JStr ("deck:" ++ DQUOTE ++ deck_name ++ DQUOTE))]).

Definition get_note_info (note_ids : json) : M json :=
  n <- lift (len note_ids) ;;
  logger DEBUG ("Retrieving info for " ++ str_nat n ++ " notes") ;;
  invoke "notesInfo" (JObj [("notes", note_ids)]).

Definition get_model_templates (model_name : string) : M json :=
  logger DEBUG ("Retrieving templates for model: " ++ model_name) ;;
  invoke "modelTemplates" (JObj [("modelName", JStr model_name)]).

(** [[note for note in notes if note["modelName"] == model_name]]. *)
Fixpoint select_model (model_name : string) (notes : list json) : res (list json) :=
  match notes with
  | [] => Ok []
  | note :: rest =>
      res_bind (subscript note "modelName") (fun m =>
      res_bind (select_model model_name rest) (fun kept =>
      Ok (if eq_str m model_name then note :: kept else kept)))
  end.

End Client.
End AnkiConnect.

(** ** main.py: the word list *)

Module Main.
Import Py Run AnkiConnect.
Local Open Scope run_scope.

Section Fetch.
Variable E : env.

(** [get_words()]: the notes kept, or [None]. *)
Definition get_words : M (option (list json)) :=
  try_except
    (logger INFO "Starting audio enablement process for Polish deck" ;;
     logger DEBUG "Retrieving template information for 'Words' model" ;;
     templates_dict <- get_model_templates E "Words" ;;
     template_names <- lift (keys templates_dict) ;;
     logger DEBUG ("Found templates: " ++ str E (JArr (map JStr template_names))) ;;
     if negb (contains "Word" template_names) then
       logger WARNING "'Word' template not found in the 'Words' model" ;;
       ret None
     else
       word_template_ord <- lift (index "Word" template_names) ;;
       logger DEBUG ("'Word' template order: " ++ str_nat word_template_ord) ;;
       logger INFO "Searching for notes in Polish deck" ;;
       note_ids <- find_notes E "Polish" ;;
       if negb (truthy note_ids) then
         logger WARNING "No notes found in Polish deck" ;;
         ret None
       else
         n <- lift (len note_ids) ;;
         logger INFO ("Found " ++ str_nat n ++ " notes in Polish deck") ;;
         notes <- get_note_info E note_ids ;;
         logger DEBUG "Filtering notes by 'Words' model" ;;
         notes <- lift (res_bind (iter notes) (select_model "Words")) ;;
         match notes with
         | [] =>
             logger WARNING "No notes found with 'Words' model in Polish deck" ;;
             ret None
         | _ :: _ =>
             logger INFO ("Found " ++ str_nat (List.length notes)
                          ++ " notes with 'Words' model") ;;
             ret (Some notes)
         end)
    (fun e =>
       logger_exc ERROR "Error during audio enablement process: " e ;;
       ret None).

End Fetch.

(** [word["fields"]["Word"]["value"]], a text. *)
Definition word_value (word : json) : res string :=
  res_bind (subscript word "fields") (fun fields =>
  res_bind (subscript fields "Word") (fun field =>
  res_bind (subscript field "value") text)).

(** The loop over [word["tags"]] (lines 121-124). *)
Fixpoint add_tags (word : json) (tags : list json) (tag_dict : dict) : res dict :=
  match tags with
  | [] => Ok tag_dict
  | tag :: rest =>
      res_bind (text tag) (fun tag =>
      let tag_dict :=
        if negb (dict_contains tag tag_dict) then dict_setitem tag [] tag_dict
        else tag_dict in
      res_bind (dict_append tag (word_value word) tag_dict) (add_tags word rest))
  end.

(** The loop over [words] (lines 115-124). *)
Fixpoint add_words (words : list json) (tag_dict : dict) : res dict :=
  match words with
  | [] => Ok tag_dict
  | word :: rest =>
      res_bind (dict_append "all" (word_value word) tag_dict) (fun tag_dict =>
      res_bind (subscript word "tags") (fun tags =>
      if negb (truthy tags) then
        res_bind (dict_append "no-tag" (word_value word) tag_dict) (add_words rest)
      else
        res_bind (iter tags) (fun tags =>
        res_bind (add_tags word tags tag_dict) (add_words rest))))
  end.

(** Lines 114-127: the buckets, each sorted. *)
Definition group (words : list json) : res dict :=
  res_bind (add_words words [("all", []); ("no-tag", [])]) (fun tag_dict =>
  Ok (map (fun kv => (fst kv, sorted (snd kv))) tag_dict)).

(** The inner loop of the writer (lines 133-138): [f] is what has been
    written so far. *)
Fixpoint write_words (words : list string) (first : bool) (f : string) : string :=
  match words with
  | [] => f
  | word :: rest =>
      let f := if negb first then (f ++ ", ")%string else f in
      let f := (f ++ word)%string in
      write_words rest false f
  end.

(** The loop over [tag_dict.items()] (lines 131-140). *)
Fixpoint write_blocks (items : dict) (f : string) : string :=
  match items with
  | [] => f
  | (tag, words) :: rest =>
      let f := (f ++ (tag ++ ":" ++ LF))%string in
      let f := write_words words true f in
      let f := (f ++ (LF ++ LF))%string in
      write_blocks rest f
  end.

(** Lines 130-140: [words.txt] is opened for writing and the blocks
    written. *)
Definition store (tag_dict : dict) (fs : filesystem) : filesystem :=
  write_file "words.txt" (write_blocks tag_dict "") fs.

Definition process_and_store (words : list json) (fs : filesystem) : res filesystem :=
  res_bind (group words) (fun tag_dict => Ok (store tag_dict fs)).

(** The script body under [if __name__ == "__main__"]: the records
    logged, how the process ended and the files it left. *)
Definition main (E : env) (fs : filesystem) : list record * (termination * filesystem) :=
  let (log1, words) :=
    (logger INFO "=== Starting Anki Fetch ===" ;;
     words <- get_words E ;;
     logger INFO "=== End of Anki Fetch ===" ;;
     ret words) in
  match words with
  | Ok None | Ok (Some []) =>
      (log1 ++ [mk_record WARNING "No words were retrieved from Anki." None],
       (SystemExit 0, fs))
  | Ok (Some words) =>
      match process_and_store words fs with
      | Ok fs' => (log1, (Finished, fs'))
      | Raise e => (log1, (Uncaught e, fs))
      | OutOfModel => (log1, (Unknown, fs))
      end
  | Raise e => (log1, (Uncaught e, fs))
  | OutOfModel => (log1, (Unknown, fs))
  end.

End Main.

(** ** sentences.py: the sentence list *)

Module Sentences.
Import Py Run AnkiConnect.
Local Open Scope run_scope.

Section Fetch.
Variable E : env.

(** [get_sentences()]: the notes kept, or [None]. *)
Definition get_sentences : M (option (list json)) :=
  try_except
    (logger INFO "Starting audio enablement process for Polish deck" ;;
     logger DEBUG "Retrieving template information for 'Custom Cloze' model" ;;
     templates_dict <- get_model_templates E "Custom Cloze" ;;
     template_names <- lift (keys templates_dict) ;;
     logger DEBUG ("Found templates: " ++ str E (JArr (map JStr template_names))) ;;
     if negb (contains "Fill Blank" template_names) then
       logger WARNING "'Fill Blank' template not found in the 'Sentences' model" ;;
       ret None
     else
       word_template_ord <- lift (index "Fill Blank" template_names) ;;
       logger DEBUG ("'Fill Blank' template order: " ++ str_nat word_template_ord) ;;
       logger INFO "Searching for notes in Polish deck" ;;
       note_ids <- find_notes E "Polish" ;;
       if negb (truthy note_ids) then
         logger WARNING "No notes found in Polish deck" ;;
         ret None
       else
         n <- lift (len note_ids) ;;
         logger INFO ("Found " ++ str_nat n ++ " notes in Polish deck") ;;
         notes <- get_note_info E note_ids ;;
         logger DEBUG "Filtering notes by 'Custom Cloze' model" ;;
         notes <- lift (res_bind (iter notes) (select_model "Custom Cloze")) ;;
         match notes with
         | [] =>
             logger WARNING "No notes found with 'Custom Cloze' model in Polish deck" ;;
             ret None
         | _ :: _ =>
             logger INFO ("Found " ++ str_nat (List.length notes)
                          ++ " notes with 'Custom Cloze' model") ;;
             ret (Some notes)
         end)
    (fun e =>
       logger_exc ERROR "Error during audio enablement process: " e ;;
       ret None).

End Fetch.

(** [sentence["fields"][name]["value"]], a text. *)
Definition field_value (sentence : json) (name : string) : res string :=
  res_bind (subscript sentence "fields") (fun fields =>
  res_bind (subscript fields name) (fun field =>
  res_bind (subscript field "value") text)).

(** The sum appended at lines 114-120, operands left to right. *)
Definition concatenation (sentence : json) : res string :=
  res_bind (field_value sentence "Words Before") (fun before =>
  res_bind (field_value sentence "Cloze Word") (fun cloze =>
  res_bind (field_value sentence "Words Between") (fun between =>
  res_bind (field_value sentence "Cloze Word Second Part") (fun second =>
  res_bind (field_value sentence "Words After") (fun after =>
  Ok ((((before ++ cloze) ++ between) ++ second) ++ after)%string))))).

(** The loop over [sentences] (lines 112-120). *)
Fixpoint concatenations (sentences : list json) : res (list string) :=
  match sentences with
  | [] => Ok []
  | sentence :: rest =>
      res_bind (concatenation sentence) (fun s =>
      res_bind (concatenations rest) (fun l => Ok (s :: l)))
  end.

(** Lines 112-126: the sentences, sorted, each once. *)
Definition process (sentences : list json) : res (list string) :=
  res_bind (concatenations sentences) (fun processed_sentences =>
  let processed_sentences := sorted processed_sentences in
  let processed_sentences := fromkeys processed_sentences in
  Ok processed_sentences).

(** The loop of the writer (lines 130-131). *)
Fixpoint write_lines (sentences : list string) (f : string) : string :=
  match sentences with
  | [] => f
  | sentence :: rest => write_lines rest (f ++ (sentence ++ LF))%string
  end.

Definition store (processed_sentences : list string) (fs : filesystem) : filesystem :=
  write_file "sentences.txt" (write_lines processed_sentences "") fs.

Definition process_and_store (sentences : list json) (fs : filesystem) : res filesystem :=
  res_bind (process sentences) (fun processed_sentences =>
  Ok (store processed_sentences fs)).

(** The script body under [if __name__ == "__main__"]. *)
Definition main (E : env) (fs : filesystem)
  : list record * (termination * filesystem) :=
  let (log1, sentences) :=
    (logger INFO "=== Starting Anki Fetch ===" ;;
     sentences <- get_sentences E ;;
     logger INFO "=== End of Anki Fetch ===" ;;
     ret sentences) in
  match sentences with
  | Ok None | Ok (Some []) =>
      (log1 ++ [mk_record WARNING "No sentences were retrieved from Anki." None],
       (SystemExit 0, fs))
  | Ok (Some sentences) =>
      match process_and_store sentences fs with
      | Ok fs' => (log1, (Finished, fs'))
      | Raise e => (log1, (Uncaught e, fs))
      | OutOfModel => (log1, (Unknown, fs))
      end
  | Raise e => (log1, (Uncaught e, fs))
  | OutOfModel => (log1, (Unknown, fs))
  end.

End Sentences.

(** ** Vocabulary of the statements *)

Module Spec.
Import Py Run AnkiConnect.

(** Lexicographic ascending order of a list of [str]: every item is at
    most every later one. *)
Definition ascending (l : list string) : Prop :=
  StronglySorted (fun a b => String.leb a b = true) l.

(** The words under [tag] in a tag dictionary; empty for a tag it lacks. *)
Definition bucket (tag : string) (d : dict) : list string :=
  match assoc tag d with
  | Some ws => ws
  | None => []
  end.

(** The block of the word file for one tag: the tag and a colon on a line,
    the words separated by a comma and a space on the next, a blank line. *)
Definition block (tag : string) (words : list string) : string :=
  tag ++ ":" ++ LF ++ String.concat ", " words ++ LF ++ LF.

(** A note as AnkiConnect's [notesInfo] gives it, with the fields,
    model name and tags named. *)
Definition note (model : string) (tags : list string)
    (fields : list (string * string)) : json :=
  JObj [("modelName", JStr model);
        ("tags", JArr (map JStr tags));
        ("fields", JObj (map (fun kv => (fst kv, JObj [("value", JStr (snd kv))])) fields))].

(** The three notes of the grouping example. *)
Definition example_notes : list json :=
  [ note "Words" [] [("Word", "b")];
    note "Words" ["noun"] [("Word", "a")];
    note "Other" [] [("Word", "z")] ].

(** [n] carries the word [w] and the tags [tags]. *)
Definition word_note (n : json) (w : string) (tags : list string) : Prop :=
  Main.word_value n = Ok w /\ subscript n "tags" = Ok (JArr (map JStr tags)).

(** [n] has a model name, and it is [model] or not. *)
Definition has_model (model : string) (n : json) : bool :=
  match subscript n "modelName" with
  | Ok m => eq_str m model
  | _ => false
  end.

(** What one note adds to the bucket [t]: its word once for ["all"], once
    for ["no-tag"] when it has no tag, once for each time [t] stands among
    its tags. *)
Definition entries (t : string) (wt : string * list string) : list string :=
  let (w, tags) := wt in
  (if t =? "all" then [w] else [])
  ++ match tags with
     | [] => if t =? "no-tag" then [w] else []
     | _ :: _ => map (fun _ => w) (filter (String.eqb t) tags)
     end.

(** The five fields of a cloze note, in the order they are joined. *)
Definition five_fields (n : json) (f : string * string * string * string * string) : Prop :=
  let '(before, cloze, between, second, after) := f in
  Sentences.field_value n "Words Before" = Ok before /\
  Sentences.field_value n "Cloze Word" = Ok cloze /\
  Sentences.field_value n "Words Between" = Ok between /\
  Sentences.field_value n "Cloze Word Second Part" = Ok second /\
  Sentences.field_value n "Words After" = Ok after.

Definition joined (f : string * string * string * string * string) : string :=
  let '(before, cloze, between, second, after) := f in
  before ++ cloze ++ between ++ second ++ after.

(** Three cloze notes whose fields join to bb, aa and aa. *)
Definition example_fields : list (string * string * string * string * string) :=
  [("b", "b", "", "", ""); ("", "a", "", "a", ""); ("a", "", "", "", "a")].

Definition cloze_note (f : string * string * string * string * string) : json :=
  let '(before, cloze, between, second, after) := f in
  note "Custom Cloze" []
    [("Words Before", before); ("Cloze Word", cloze); ("Words Between", between);
     ("Cloze Word Second Part", second); ("Words After", after)].

Definition example_sentences : list json := map cloze_note example_fields.

(** The request went through and [body] is the decoded JSON of the
    response. *)
Definition replies (E : env) (action : string) (params body : json) : Prop :=
  exists r,
    post E ANKI_CONNECT_URL (request action params) = Ok r /\
    raise_for_status r = Ok tt /\
    response_json r = Ok body.

(** The transport raised [e]: in [requests.post], in [raise_for_status()]
    or in [json()]. *)
Definition transport_raises (E : env) (action : string) (params : json) (e : exn) : Prop :=
  post E ANKI_CONNECT_URL (request action params) = Raise e \/
  exists r,
    post E ANKI_CONNECT_URL (request action params) = Ok r /\
    (raise_for_status r = Raise e \/
     (raise_for_status r = Ok tt /\ response_json r = Raise e)).

(** The [error] field as [result.get("error")] reads it. *)
Definition error_field (m : list (string * json)) : json :=
  match assoc "error" m with
  | Some e => e
  | None => JNull
  end.

(** The response [m] with its [error] field taken out. *)
Definition without_error (m : list (string * json)) : list (string * json) :=
  filter (fun kv => negb (fst kv =? "error")) m.

(** A world that answers every request with the decoded body [body], and
    one whose every request fails in the transport with [e]. *)
Definition always_replies (body : json) : env :=
  mk_env (fun _ _ => Ok (mk_response (Ok tt) (Ok body))) (fun _ => "?").

Definition always_fails (e : exn) : env :=
  mk_env (fun _ _ => Raise e) (fun _ => "?").

(** The action succeeded with the payload [payload]. *)
Definition answers (E : env) (action : string) (params payload : json) : Prop :=
  exists m,
    replies E action params (JObj m) /\
    truthy (error_field m) = false /\
    assoc "result" m = Some payload.

Definition templates_request : json := JObj [("modelName", JStr "Words")].
Definition deck_request : json :=
  JObj [("query", JStr ("deck:" ++ DQUOTE ++ "Polish" ++ DQUOTE))].
Definition notes_request (note_ids : json) : json := JObj [("notes", note_ids)].

(** The three conditions without qualifying data: the "Word" template is
    not among the templates of the model; it is, and the deck query gives no
    note id; it is, and none of the notes fetched has the model "Words". *)
Definition template_present (E : env) : Prop :=
  exists t,
    answers E "modelTemplates" templates_request (JObj t) /\
    contains "Word" (map fst t) = true.

Definition template_missing (E : env) : Prop :=
  exists t,
    answers E "modelTemplates" templates_request (JObj t) /\
    contains "Word" (map fst t) = false.

Definition deck_empty (E : env) : Prop :=
  template_present E /\ answers E "findNotes" deck_request (JArr []).

Definition no_matching_note (E : env) : Prop :=
  template_present E /\
  exists id ids notes,
    answers E "findNotes" deck_request (JArr (id :: ids)) /\
    answers E "notesInfo" (notes_request (JArr (id :: ids))) (JArr notes) /\
    Forall (fun n => exists m, subscript n "modelName" = Ok m /\ eq_str m "Words" = false)
           notes.

(** No request reaches the endpoint. *)
Definition unreachable (E : env) : Prop :=
  forall url body, exists msg, post E url body = Raise (requests_ConnectionError msg).

(** A world that answers by the action asked for: the payload the script
    gives for it, with a null [error], and a refused connection for an
    action the script lacks. *)
Definition action_of (body : json) : string :=
  match body with
  | JObj (("action", JStr a) :: _) => a
  | _ => ""
  end.

Definition scripted (script : list (string * json)) : env :=
  mk_env
    (fun _ body =>
       match assoc (action_of body) script with
       | Some payload =>
           Ok (mk_response (Ok tt) (Ok (JObj [("result", payload); ("error", JNull)])))
       | None => Raise (requests_ConnectionError "Connection refused")
       end)
    (fun _ => "?").

Definition world_without_template : env :=
  scripted [("modelTemplates", JObj [("Card 1", JStr "{{Front}}")])].

Definition world_empty_deck : env :=
  scripted [("modelTemplates", JObj [("Word", JStr "{{Word}}")]);
            ("findNotes", JArr [])].

Definition world_other_model : env :=
  scripted [("modelTemplates", JObj [("Word", JStr "{{Word}}")]);
            ("findNotes", JArr [JInt 7]);
            ("notesInfo", JArr [note "Other" [] [("Word", "z")]])].

(** Two worlds that differ in the place of the "Word" template only. *)
Definition world_word_first : env :=
  scripted [("modelTemplates", JObj [("Word", JStr "{{Word}}"); ("Reverse", JStr "{{Meaning}}")]);
            ("findNotes", JArr [JInt 7; JInt 8]);
            ("notesInfo", JArr example_notes)].

Definition world_word_second : env :=
  scripted [("modelTemplates", JObj [("Reverse", JStr "{{Meaning}}"); ("Word", JStr "{{Word}}")]);
            ("findNotes", JArr [JInt 7; JInt 8]);
            ("notesInfo", JArr example_notes)].

Definition world_down : env := scripted [].

Definition no_files : filesystem := fun _ => None.

(** [get_words] from the deck query on (lines 88-107), under the handler of
    its [try]: what runs once the template has been found. *)
Definition after_template_check (E : env) : M (option (list json)) :=
  (try_except
     (logger INFO "Searching for notes in Polish deck" ;;
      note_ids <- find_notes E "Polish" ;;
      if negb (truthy note_ids) then
        logger WARNING "No notes found in Polish deck" ;;
        ret None
      else
        n <- lift (len note_ids) ;;
        logger INFO ("Found " ++ str_nat n ++ " notes in Polish deck") ;;
        notes <- get_note_info E note_ids ;;
        logger DEBUG "Filtering notes by 'Words' model" ;;
        notes <- lift (res_bind (iter notes) (select_model "Words")) ;;
        match notes with
        | [] =>
            logger WARNING "No notes found with 'Words' model in Polish deck" ;;
            ret None
        | _ :: _ =>
            logger INFO ("Found " ++ str_nat (List.length notes)
                         ++ " notes with 'Words' model") ;;
            ret (Some notes)
        end)
     (fun e =>
        logger_exc ERROR "Error during audio enablement process: " e ;;
        ret None))%run.

(** The process ended abnormally: an uncaught exception or a non-zero
    exit status. *)
Definition fatal (t : termination) : bool :=
  match exit_status t with
  | Some 0%Z => false
  | _ => true
  end.

(** [wt] is a note with the word [w] that carries the tag [t]. *)
Definition carries (t w : string) (wt : string * list string) : bool :=
  (fst wt =? w) && contains t (snd wt).

(** A note tagged "all", the reserved name of the bucket of every word. *)
Definition note_tagged_all : json := note "Words" ["all"] [("Word", "a")].

Definition no_error_record (log : list record) : Prop :=
  Forall (fun r => levelname r <> ERROR) log.

Definition warned (log : list record) (msg : string) : Prop :=
  In (mk_record WARNING msg None) (emitted log).

End Spec.

(** ** Vocabulary of the further properties *)

Module More.
Import Py Run AnkiConnect Spec.

(** An exception the [except] clauses of [invoke] do not name. *)
Definition foreign (e : exn) : bool :=
  match e with
  | requests_ConnectionError _ | requests_RequestException _ => false
  | _ => true
  end.

(** The tags of the notes, in the order the grouping loop meets them. *)
Definition tags_in_order (typed : list (string * list string)) : list string :=
  flat_map snd typed.

(** The values [len] accepts. *)
Definition has_len (v : json) : bool :=
  match v with
  | JArr _ | JObj _ | JStr _ => true
  | _ => false
  end.

(** The names of the five cloze fields, in the order they are joined. *)
Definition five_names : list string :=
  ["Words Before"; "Cloze Word"; "Words Between"; "Cloze Word Second Part"; "Words After"].

(** The requests of the sentence script. *)
Definition cloze_templates_request : json := JObj [("modelName", JStr "Custom Cloze")].

(** The "Fill Blank" template is not among the templates of the model
    "Custom Cloze". *)
Definition cloze_template_missing (E : env) : Prop :=
  exists t,
    answers E "modelTemplates" cloze_templates_request (JObj t) /\
    contains "Fill Blank" (map fst t) = false.

(** The call of [action] with [params] raises [e]. *)
Definition call_raises (E : env) (action : string) (params : json) (e : exn) : Prop :=
  result_of (invoke E action params) = Raise e.

(** A stage of the fetch raises [e]: the template query, the deck query
    once the template is found, or the note query once the deck query has
    given ids. *)
Definition fetch_raises (E : env) (e : exn) : Prop :=
  call_raises E "modelTemplates" templates_request e \/
  (template_present E /\ call_raises E "findNotes" deck_request e) \/
  (template_present E /\
   exists id ids,
     answers E "findNotes" deck_request (JArr (id :: ids)) /\
     call_raises E "notesInfo" (notes_request (JArr (id :: ids))) e).

(** The record the handler of the fetch logs for [e]. *)
Definition fetch_error (e : exn) : record :=
  mk_record ERROR "Error during audio enablement process: " (Some e).

(** A world whose server answers every action with the error
    "collection is not available". *)
Definition world_api_error : env :=
  always_replies (JObj [("result", JNull); ("error", JStr "collection is not available")]).

(** A world in which one of two notes fetched has lost its model name. *)
Definition world_broken_note : env :=
  scripted [("modelTemplates", JObj [("Word", JStr "{{Word}}")]);
            ("findNotes", JArr [JInt 7; JInt 8]);
            ("notesInfo", JArr [note "Words" [] [("Word", "b")]; JObj []])].

(** The fetch of the word script goes through: the template is found, the
    deck query gives the ids [id :: ids] and the note query the notes
    [notes], each with a model name. *)
Definition fetches (E : env) (id : json) (ids notes : list json) : Prop :=
  template_present E /\
  answers E "findNotes" deck_request (JArr (id :: ids)) /\
  answers E "notesInfo" (notes_request (JArr (id :: ids))) (JArr notes) /\
  Forall (fun n => exists v, subscript n "modelName" = Ok v) notes.

(** The same of the sentence script. *)
Definition fetches_cloze (E : env) (id : json) (ids notes : list json) : Prop :=
  (exists t,
     answers E "modelTemplates" cloze_templates_request (JObj t) /\
     contains "Fill Blank" (map fst t) = true) /\
  answers E "findNotes" deck_request (JArr (id :: ids)) /\
  answers E "notesInfo" (notes_request (JArr (id :: ids))) (JArr notes) /\
  Forall (fun n => exists v, subscript n "modelName" = Ok v) notes.

(** A world with three cloze notes and a note of another model. *)
Definition world_cloze : env :=
  scripted [("modelTemplates", JObj [("Fill Blank", JStr "{{cloze}}")]);
            ("findNotes", JArr [JInt 1; JInt 2; JInt 3; JInt 4]);
            ("notesInfo", JArr (note "Words" [] [("Word", "z")] :: example_sentences))].


End More.

(** * Properties *)

(** One step of a run whose pieces are known: the monad's operations and
    the dynamic checks are computed, the texts are left as they are. *)
Ltac run_step :=
  cbn [Run.bind Run.logger Run.logger_exc Run.lift Run.ret Run.raise Run.try_except
       app Py.res_bind Py.keys Py.len Py.iter Py.truthy negb map fst snd
       Run.log_of Run.result_of].

(** Runs a computation through all the ways its calls and checks can
    end. *)
Ltac run_cases :=
  repeat (run_step;
          match goal with
          | |- context [Run.bind ?m _] =>
              lazymatch m with
              | context [match _ with _ => _ end] => fail
              | context [Run.bind _ _] => fail
              | _ => destruct m as [? [?|?|]] eqn:?
              end
          | |- context [match ?x with _ => _ end] =>
              lazymatch x with
              | context [match _ with _ => _ end] => fail
              | context [Run.bind _ _] => fail
              | _ => destruct x eqn:?
              end
          end);
  run_step.

(** Finds a record in a log given as a list. *)
Ltac find_record :=
  repeat first [ left; reflexivity | right | apply in_or_app; right ].

(** ** The order of [str] *)

Section StringOrder.

Lemma ascii_compare_refl (a : ascii) : Ascii.compare a a = Eq.
Proof. unfold Ascii.compare. apply N.compare_refl. Qed.

Lemma ascii_compare_eq (a b : ascii) : Ascii.compare a b = Eq -> a = b.
Proof. apply Ascii.compare_eq_iff. Qed.

Lemma ascii_compare_lt_trans (a b c : ascii) :
  Ascii.compare a b = Lt -> Ascii.compare b c = Lt -> Ascii.compare a c = Lt.
Proof.
  unfold Ascii.compare. rewrite !N.compare_lt_iff. apply N.lt_trans.
Qed.

Lemma string_compare_refl (s : string) : String.compare s s = Eq.
Proof.
  induction s as [|a s IH]; simpl; [reflexivity|].
  now rewrite ascii_compare_refl.
Qed.

Lemma string_compare_lt_trans (s1 : string) :
  forall s2 s3,
    String.compare s1 s2 = Lt -> String.compare s2 s3 = Lt ->
    String.compare s1 s3 = Lt.
Proof.
  induction s1 as [|a s1 IH]; intros [|b s2] [|c s3]; simpl; try congruence.
  destruct (Ascii.compare a b) eqn:Hab; try discriminate;
    destruct (Ascii.compare b c) eqn:Hbc; try discriminate; intros H12 H23.
  - apply ascii_compare_eq in Hab, Hbc. subst.
    rewrite ascii_compare_refl. eauto.
  - apply ascii_compare_eq in Hab. subst. now rewrite Hbc.
  - apply ascii_compare_eq in Hbc. subst. now rewrite Hab.
  - now rewrite (ascii_compare_lt_trans _ _ _ Hab Hbc).
Qed.

Lemma leb_refl (s : string) : String.leb s s = true.
Proof. unfold String.leb. now rewrite string_compare_refl. Qed.

Lemma leb_cases (s1 s2 : string) :
  String.leb s1 s2 = true <-> s1 = s2 \/ String.ltb s1 s2 = true.
Proof.
  unfold String.leb, String.ltb.
  destruct (String.compare s1 s2) eqn:H; split; intros; auto; try discriminate.
  - left. now apply String.compare_eq_iff.
  - destruct H0 as [->|]; [|discriminate].
    rewrite string_compare_refl in H. discriminate.
Qed.

Lemma ltb_trans (s1 s2 s3 : string) :
  String.ltb s1 s2 = true -> String.ltb s2 s3 = true -> String.ltb s1 s3 = true.
Proof.
  unfold String.ltb.
  destruct (String.compare s1 s2) eqn:H12; try discriminate.
  destruct (String.compare s2 s3) eqn:H23; try discriminate.
  now rewrite (string_compare_lt_trans _ _ _ H12 H23).
Qed.

Lemma leb_trans (s1 s2 s3 : string) :
  String.leb s1 s2 = true -> String.leb s2 s3 = true -> String.leb s1 s3 = true.
Proof.
  rewrite !leb_cases. intros [->|H12] [->|H23]; auto.
  right. eapply ltb_trans; eauto.
Qed.

Lemma ltb_irrefl (s : string) : String.ltb s s = false.
Proof. unfold String.ltb. now rewrite string_compare_refl. Qed.

Lemma leb_false_ltb (s1 s2 : string) :
  String.leb s1 s2 = false -> String.ltb s2 s1 = true.
Proof.
  unfold String.leb, String.ltb. rewrite (String.compare_antisym s2 s1).
  destruct (String.compare s1 s2); simpl; congruence.
Qed.

End StringOrder.

(** ** [sorted] and [dict.fromkeys] *)

Section Sorting.
Import Py Spec.

Lemma insert_perm (x : string) (l : list string) : Permutation (x :: l) (insert x l).
Proof.
  induction l as [|y l IH]; simpl; [reflexivity|].
  destruct (String.leb x y); [reflexivity|].
  rewrite perm_swap. now apply perm_skip.
Qed.

Lemma sorted_perm (l : list string) : Permutation l (sorted l).
Proof.
  induction l as [|x l IH]; simpl; [reflexivity|].
  rewrite <- insert_perm. now apply perm_skip.
Qed.

Lemma sorted_in (l : list string) (x : string) : In x (sorted l) <-> In x l.
Proof.
  split; apply Permutation_in; [symmetry|]; apply sorted_perm.
Qed.

Lemma sorted_length (l : list string) : List.length (sorted l) = List.length l.
Proof. symmetry. apply Permutation_length, sorted_perm. Qed.

Lemma insert_ascending (x : string) (l : list string) :
  ascending l -> ascending (insert x l).
Proof.
  unfold ascending. induction 1 as [|y l Hl IH Hy]; simpl.
  - repeat constructor.
  - destruct (String.leb x y) eqn:Hxy.
    + constructor; [now constructor|].
      constructor; [assumption|].
      eapply Forall_impl; [|exact Hy]. intros z Hz. eapply leb_trans; eauto.
    + constructor; [assumption|].
      apply (Permutation_Forall (insert_perm x l)).
      constructor; [|assumption].
      apply leb_cases. right. now apply leb_false_ltb.
Qed.

Lemma sorted_ascending (l : list string) : ascending (sorted l).
Proof.
  induction l as [|x l IH]; simpl; [constructor|].
  now apply insert_ascending.
Qed.

(** An ascending list is left as it is. *)
Lemma sorted_fixed (l : list string) : ascending l -> sorted l = l.
Proof.
  induction 1 as [|x l Hl IH Hx]; simpl; [reflexivity|].
  rewrite IH. destruct l as [|y l]; [reflexivity|]. simpl.
  inversion Hx as [|? ? Hxy _]; subst. now rewrite Hxy.
Qed.

(** Two ascending lists with the same items are the same list: [sorted l]
    is the one ascending rearrangement of [l], whatever the sorting
    algorithm. *)
Lemma ascending_perm_eq (l1 : list string) :
  forall l2, ascending l1 -> ascending l2 -> Permutation l1 l2 -> l1 = l2.
Proof.
  unfold ascending. induction l1 as [|x l1 IH]; intros l2 H1 H2 Hp.
  - now apply Permutation_nil in Hp.
  - destruct l2 as [|y l2]; [now apply Permutation_sym, Permutation_nil in Hp|].
    apply StronglySorted_inv in H1, H2. destruct H1 as [S1 F1], H2 as [S2 F2].
    assert (Hxy : x = y).
    { assert (Hx : In x (y :: l2)) by (eapply Permutation_in; eauto; now left).
      assert (Hy : In y (x :: l1))
        by (eapply Permutation_in; [symmetry; eauto|now left]).
      destruct Hx as [->|Hx]; [reflexivity|].
      destruct Hy as [->|Hy]; [reflexivity|].
      rewrite Forall_forall in F1, F2.
      apply String.leb_antisym; auto. }
    subst y. f_equal. apply IH; auto. eapply Permutation_cons_inv; eauto.
Qed.

Lemma sorted_unique (l l' : list string) :
  Permutation l l' -> ascending l' -> sorted l = l'.
Proof.
  intros Hp Ha. apply ascending_perm_eq; auto using sorted_ascending.
  rewrite <- Hp. symmetry. apply sorted_perm.
Qed.

Lemma ascending_remove (a b : list string) (x : string) :
  ascending (a ++ x :: b) -> ascending (a ++ b).
Proof.
  unfold ascending. induction a as [|y a IH]; simpl; intros H.
  - now inversion H.
  - inversion H as [|? ? Hs Hf]; subst. constructor; [now apply IH|].
    rewrite Forall_app in *. destruct Hf as [Ha Hb]. split; [assumption|].
    now inversion Hb.
Qed.

Lemma contains_in (x : string) (l : list string) : contains x l = true <-> In x l.
Proof.
  unfold contains. rewrite existsb_exists. split.
  - intros (y & Hy & Hxy). apply String.eqb_eq in Hxy. now subst.
  - intros H. exists x. split; [assumption|apply String.eqb_refl].
Qed.

Lemma contains_not_in (x : string) (l : list string) : contains x l = false <-> ~ In x l.
Proof.
  rewrite <- contains_in. destruct (contains x l); split; congruence.
Qed.

Lemma fromkeys_from_in (l acc : list string) (x : string) :
  In x (fold_left fromkeys_step l acc) <-> In x acc \/ In x l.
Proof.
  revert acc. induction l as [|k l IH]; intros acc; simpl; [tauto|].
  rewrite IH. unfold fromkeys_step.
  destruct (contains k acc) eqn:Hk.
  - apply contains_in in Hk. split; [tauto|]. intros [H|[->|H]]; auto.
  - rewrite in_app_iff. simpl. tauto.
Qed.

Lemma fromkeys_from_nodup (l acc : list string) :
  NoDup acc -> NoDup (fold_left fromkeys_step l acc).
Proof.
  revert acc. induction l as [|k l IH]; intros acc Hacc; simpl; [assumption|].
  apply IH. unfold fromkeys_step.
  destruct (contains k acc) eqn:Hk; [assumption|].
  apply contains_not_in in Hk.
  apply (Permutation_NoDup (Permutation_cons_append acc k)).
  now constructor.
Qed.

Lemma fromkeys_from_ascending (l acc : list string) :
  ascending (acc ++ l) -> ascending (fold_left fromkeys_step l acc).
Proof.
  revert acc. induction l as [|k l IH]; intros acc H; simpl.
  - now rewrite app_nil_r in H.
  - apply IH. unfold fromkeys_step. destruct (contains k acc).
    + eapply ascending_remove; eauto.
    + now rewrite <- app_assoc.
Qed.

Lemma fromkeys_in (l : list string) (x : string) : In x (fromkeys l) <-> In x l.
Proof. unfold fromkeys. rewrite (fromkeys_from_in l [] x). simpl. tauto. Qed.

Lemma fromkeys_nodup (l : list string) : NoDup (fromkeys l).
Proof. apply (fromkeys_from_nodup l []). constructor. Qed.

Lemma fromkeys_ascending (l : list string) : ascending l -> ascending (fromkeys l).
Proof. intros H. now apply (fromkeys_from_ascending l []). Qed.

End Sorting.

(** ** The tag dictionary *)

Section TagDict.
Import Py Spec.

Lemma assoc_setitem (t k : string) (v : list string) (d : dict) :
  assoc t (dict_setitem k v d) = if k =? t then Some v else assoc t d.
Proof.
  induction d as [|[k' v'] d IH]; simpl.
  - destruct (k =? t); reflexivity.
  - destruct (k' =? k) eqn:Hk; simpl.
    + apply String.eqb_eq in Hk. subst k'. destruct (k =? t); reflexivity.
    + rewrite IH. destruct (k' =? t) eqn:Ht; [|reflexivity].
      apply String.eqb_eq in Ht. subst k'. now rewrite String.eqb_sym, Hk.
Qed.

Lemma bucket_setitem (t k : string) (v : list string) (d : dict) :
  bucket t (dict_setitem k v d) = if k =? t then v else bucket t d.
Proof.
  unfold bucket. rewrite assoc_setitem. now destruct (k =? t).
Qed.

Lemma dict_contains_assoc (k : string) (d : dict) :
  dict_contains k d = match assoc k d with Some _ => true | None => false end.
Proof.
  induction d as [|[k' v'] d IH]; simpl; [reflexivity|].
  destruct (k' =? k); simpl; auto.
Qed.

Lemma dict_append_bucket (k w : string) (d : dict) :
  assoc k d <> None ->
  dict_append k (Ok w) d = Ok (dict_setitem k (bucket k d ++ [w]) d).
Proof.
  unfold dict_append, dict_getitem, bucket.
  destruct (assoc k d); [reflexivity|congruence].
Qed.

Lemma assoc_map_sorted (t : string) (d : dict) :
  assoc t (map (fun kv => (fst kv, sorted (snd kv))) d) = option_map sorted (assoc t d).
Proof.
  induction d as [|[k v] d IH]; simpl; [reflexivity|].
  now destruct (k =? t).
Qed.

Lemma assoc_in {V} (t : string) (m : list (string * V)) (v : V) :
  assoc t m = Some v -> In (t, v) m.
Proof.
  induction m as [|[k x] m IH]; simpl; [discriminate|].
  destruct (k =? t) eqn:Hk.
  - apply String.eqb_eq in Hk. intros [= ->]. subst. now left.
  - auto.
Qed.

(** One pass of the loop over a note's tags. *)
Lemma add_tags_spec (word : json) (w : string) :
  Main.word_value word = Ok w ->
  forall (tags : list string) (d : dict),
  exists d',
    Main.add_tags word (map JStr tags) d = Ok d' /\
    (forall t, bucket t d' = bucket t d ++ map (fun _ => w) (filter (String.eqb t) tags)) /\
    (forall t, assoc t d <> None -> assoc t d' <> None) /\
    (forall t, In t tags -> assoc t d' <> None).
Proof.
  intros Hw tags. induction tags as [|tag tags IH]; intros d; simpl.
  - exists d. split; [reflexivity|].
    split; [intros t; simpl; now rewrite app_nil_r|].
    split; [auto|intros t []].
  - set (d1 := if negb (dict_contains tag d) then dict_setitem tag [] d else d).
    assert (H1 : forall t, bucket t d1 = bucket t d).
    { intros t. unfold d1. rewrite dict_contains_assoc.
      destruct (assoc tag d) eqn:Ha; simpl; [reflexivity|].
      rewrite bucket_setitem. destruct (tag =? t) eqn:Ht; [|reflexivity].
      apply String.eqb_eq in Ht. subst t. unfold bucket. now rewrite Ha. }
    assert (H2 : forall t, assoc t d <> None -> assoc t d1 <> None).
    { intros t Ht. unfold d1. destruct (negb (dict_contains tag d)); [|assumption].
      rewrite assoc_setitem. now destruct (tag =? t). }
    assert (H3 : assoc tag d1 <> None).
    { unfold d1. rewrite dict_contains_assoc.
      destruct (assoc tag d) eqn:Ha; simpl; [congruence|].
      rewrite assoc_setitem, String.eqb_refl. congruence. }
    rewrite Hw, (dict_append_bucket _ _ _ H3). simpl.
    destruct (IH (dict_setitem tag (bucket tag d1 ++ [w]) d1)) as (d' & Hd' & Hb & Hk & Ht).
    exists d'. split; [assumption|]. split; [|split].
    + intros t. rewrite Hb, bucket_setitem, !H1, (String.eqb_sym t tag).
      destruct (tag =? t) eqn:Htag; simpl.
      * apply String.eqb_eq in Htag. subst t. now rewrite <- app_assoc.
      * reflexivity.
    + intros t Hin. apply Hk. rewrite assoc_setitem.
      destruct (tag =? t); [congruence|auto].
    + intros t [->|Hin]; [|auto].
      apply Hk. rewrite assoc_setitem, String.eqb_refl. congruence.
Qed.

Lemma truthy_tags (tags : list string) :
  truthy (JArr (map JStr tags)) = match tags with [] => false | _ :: _ => true end.
Proof. now destruct tags. Qed.

(** The loop over the notes: every bucket grows by the entries of each
    note, in the order of the notes, and no bucket is lost. *)
Lemma add_words_spec (words : list json) (typed : list (string * list string)) :
  Forall2 (fun n wt => word_note n (fst wt) (snd wt)) words typed ->
  forall d : dict,
  assoc "all" d <> None -> assoc "no-tag" d <> None ->
  exists d',
    Main.add_words words d = Ok d' /\
    (forall t, bucket t d' = bucket t d ++ flat_map (entries t) typed) /\
    (forall t, assoc t d <> None -> assoc t d' <> None) /\
    (forall w tags t, In (w, tags) typed -> In t tags -> assoc t d' <> None).
Proof.
  induction 1 as [|n [w tags] words typed [Hw Htags] _ IH]; intros d Hall Hno.
  - exists d. split; [reflexivity|].
    split; [intros t; simpl; now rewrite app_nil_r|].
    split; [auto|intros w tags t []].
  - simpl in Hw, Htags. cbn [Main.add_words].
    rewrite Hw, (dict_append_bucket _ _ _ Hall). cbn [res_bind].
    set (d1 := dict_setitem "all" (bucket "all" d ++ [w]) d).
    assert (K1 : forall t, assoc t d <> None -> assoc t d1 <> None).
    { intros t Ht. unfold d1. rewrite assoc_setitem. now destruct ("all" =? t). }
    assert (B1 : forall t, bucket t d1 = bucket t d ++ (if t =? "all" then [w] else [])).
    { intros t. unfold d1. rewrite bucket_setitem, (String.eqb_sym t).
      destruct ("all" =? t) eqn:Ht; [|now rewrite app_nil_r].
      apply String.eqb_eq in Ht. now subst t. }
    rewrite Htags. cbn [res_bind]. rewrite truthy_tags.
    destruct tags as [|tag tags]; cbn [negb].
    + rewrite (dict_append_bucket _ _ _ (K1 _ Hno)). cbn [res_bind].
      set (d2 := dict_setitem "no-tag" (bucket "no-tag" d1 ++ [w]) d1).
      assert (K2 : forall t, assoc t d1 <> None -> assoc t d2 <> None).
      { intros t Ht. unfold d2. rewrite assoc_setitem. now destruct ("no-tag" =? t). }
      destruct (IH d2) as (d' & Hd' & Hb & Hk & Ht); auto.
      exists d'. split; [assumption|]. split; [|split].
      * intros t. rewrite Hb. unfold d2. rewrite bucket_setitem, !B1.
        cbn [flat_map entries]. rewrite (String.eqb_sym t "no-tag").
        destruct ("no-tag" =? t) eqn:E.
        -- apply String.eqb_eq in E. subst t. simpl. now rewrite <- !app_assoc.
        -- now rewrite app_nil_r, <- !app_assoc.
      * auto.
      * intros w' tags' t [Heq|Hin] Hin'; [|eauto].
        inversion Heq; subst. contradiction.
    + cbn [iter res_bind].
      destruct (add_tags_spec n w Hw (tag :: tags) d1) as (d2 & Hd2 & B2 & K2 & T2).
      change (JStr tag :: map JStr tags) with (map JStr (tag :: tags)).
      rewrite Hd2. cbn [res_bind].
      destruct (IH d2) as (d' & Hd' & Hb & Hk & Ht); auto.
      exists d'. split; [assumption|]. split; [|split].
      * intros t. rewrite Hb, B2, B1. cbn [flat_map entries].
        now rewrite <- !app_assoc.
      * auto.
      * intros w' tags' t [Heq|Hin] Hin'; [|eauto].
        inversion Heq; subst. auto.
Qed.

(** The grouping stage on notes that carry a word and tags. *)
Lemma group_spec (words : list json) (typed : list (string * list string)) :
  Forall2 (fun n wt => word_note n (fst wt) (snd wt)) words typed ->
  exists d,
    Main.group words = Ok d /\
    (forall t, bucket t d = sorted (flat_map (entries t) typed)) /\
    (forall t ws, assoc t d = Some ws -> ascending ws) /\
    assoc "all" d <> None /\ assoc "no-tag" d <> None /\
    (forall w tags t, In (w, tags) typed -> In t tags -> assoc t d <> None).
Proof.
  intros H. unfold Main.group.
  destruct (add_words_spec words typed H [("all", []); ("no-tag", [])])
    as (d' & Hd' & Hb & Hk & Ht); try (simpl; congruence).
  rewrite Hd'. cbn [res_bind]. eexists. split; [reflexivity|].
  assert (Hs : forall t, assoc t d' <> None ->
                         assoc t (map (fun kv => (fst kv, sorted (snd kv))) d') <> None).
  { intros t. rewrite assoc_map_sorted. now destruct (assoc t d'). }
  repeat split.
  - intros t. unfold bucket at 1. rewrite assoc_map_sorted.
    assert (B0 : bucket t [("all", []); ("no-tag", [])] = []).
    { unfold bucket. cbn [assoc].
      destruct ("all" =? t); [reflexivity|]. now destruct ("no-tag" =? t). }
    specialize (Hb t). rewrite B0 in Hb. cbn [app] in Hb. rewrite <- Hb.
    unfold bucket. now destruct (assoc t d').
  - intros t ws. rewrite assoc_map_sorted.
    destruct (assoc t d'); simpl; [|discriminate].
    intros [= <-]. apply sorted_ascending.
  - apply Hs, Hk. simpl. congruence.
  - apply Hs, Hk. simpl. congruence.
  - intros w tags t Hin Hin'. apply Hs. eauto.
Qed.

End TagDict.

(** ** The word pipeline: filter, buckets, order *)

Section WordPipeline.
Import Py AnkiConnect Spec.

Lemma select_model_filter (model : string) (notes : list json) :
  (forall n, In n notes -> exists m, subscript n "modelName" = Ok m) ->
  select_model model notes = Ok (filter (has_model model) notes).
Proof.
  induction notes as [|n notes IH]; intros H; simpl; [reflexivity|].
  destruct (H n (or_introl eq_refl)) as [m Hm].
  unfold has_model at 1. rewrite Hm, IH by (intros; apply H; now right).
  simpl. now destruct (eq_str m model).
Qed.

Lemma map_JStr_inj (l1 l2 : list string) : map JStr l1 = map JStr l2 -> l1 = l2.
Proof.
  revert l2. induction l1 as [|x l1 IH]; intros [|y l2]; simpl; try discriminate.
  - reflexivity.
  - intros [= -> H]. f_equal. auto.
Qed.

Lemma word_note_fun (n : json) (w w' : string) (tags tags' : list string) :
  word_note n w tags -> word_note n w' tags' -> w = w' /\ tags = tags'.
Proof.
  intros [Hw Ht] [Hw' Ht']. rewrite Hw in Hw'. rewrite Ht in Ht'.
  split; [congruence|]. apply map_JStr_inj. congruence.
Qed.

Lemma typed_notes (notes : list json) :
  (forall n, In n notes -> exists w tags, word_note n w tags) ->
  exists typed, Forall2 (fun n wt => word_note n (fst wt) (snd wt)) notes typed.
Proof.
  induction notes as [|n notes IH]; intros H.
  - exists []. constructor.
  - destruct (H n (or_introl eq_refl)) as (w & tags & Hn).
    destruct IH as [typed Ht]; [intros; apply H; now right|].
    exists ((w, tags) :: typed). now constructor.
Qed.

Lemma typed_in (notes : list json) (typed : list (string * list string)) (n : json) :
  Forall2 (fun n wt => word_note n (fst wt) (snd wt)) notes typed ->
  In n notes -> exists w tags, In (w, tags) typed /\ word_note n w tags.
Proof.
  induction 1 as [|n' [w tags] notes typed Hn _ IH]; intros Hin; [contradiction|].
  destruct Hin as [->|Hin].
  - exists w, tags. split; [now left|exact Hn].
  - destruct (IH Hin) as (w' & tags' & H1 & H2). exists w', tags'. split; [now right|assumption].
Qed.

Lemma entries_tag (t w : string) (tags : list string) :
  In t tags -> In w (entries t (w, tags)).
Proof.
  intros Hin. unfold entries. apply in_or_app. right.
  destruct tags as [|t0 tags]; [contradiction|].
  apply in_map_iff. exists t. split; [reflexivity|].
  apply filter_In. split; [assumption|apply String.eqb_refl].
Qed.

(** C1: of the fetched notes the word pipeline keeps exactly those whose
    model name is "Words"; grouping them succeeds with a tag dictionary in
    which "all" holds the word of every kept note, "no-tag" the word of
    every kept note without tags, each tag of a kept note a bucket with
    that note's word, and every bucket is in ascending order.  On the three
    notes of the example the buckets are all = [a, b], no-tag = [b],
    noun = [a]. *)
Theorem C1_word_grouping :
  (forall fetched : list json,
     (forall n, In n fetched -> exists m, subscript n "modelName" = Ok m) ->
     (forall n, In n fetched -> has_model "Words" n = true ->
                exists w tags, word_note n w tags) ->
     exists survivors d,
       res_bind (iter (JArr fetched)) (select_model "Words") = Ok survivors /\
       survivors = filter (has_model "Words") fetched /\
       Main.group survivors = Ok d /\
       (forall n w tags, In n survivors -> word_note n w tags ->
          (exists ws, assoc "all" d = Some ws /\ In w ws) /\
          (tags = [] -> exists ws, assoc "no-tag" d = Some ws /\ In w ws) /\
          (forall t, In t tags -> exists ws, assoc t d = Some ws /\ In w ws)) /\
       (forall t ws, assoc t d = Some ws -> ascending ws)) /\
  res_bind (res_bind (iter (JArr example_notes)) (select_model "Words")) Main.group
  = Ok [("all", ["a"; "b"]); ("no-tag", ["b"]); ("noun", ["a"])].
Proof.
  split; [|reflexivity].
  intros fetched Hm Hw. cbn [iter res_bind].
  rewrite (select_model_filter _ _ Hm).
  destruct (typed_notes (filter (has_model "Words") fetched)) as [typed Ht].
  { intros n Hn. apply filter_In in Hn. destruct Hn. auto. }
  destruct (group_spec _ _ Ht) as (d & Hd & Hb & Hs & _ & _ & _).
  exists (filter (has_model "Words") fetched), d.
  repeat (split; [reflexivity || assumption|]).
  split; [|assumption].
  intros n w tags Hn Hnote.
  destruct (typed_in _ _ _ Ht Hn) as (w' & tags' & Hin & Hnote').
  destruct (word_note_fun _ _ _ _ _ Hnote Hnote') as [<- <-].
  assert (Hbucket : forall t, In w (entries t (w, tags)) ->
                              exists ws, assoc t d = Some ws /\ In w ws).
  { intros t Hent.
    assert (Hin' : In w (bucket t d)).
    { rewrite Hb. apply sorted_in, in_flat_map. eauto. }
    unfold bucket in Hin'. destruct (assoc t d) as [ws|]; [eauto|contradiction]. }
  split; [|split].
  - apply Hbucket. simpl. now left.
  - intros ->. apply Hbucket. simpl. now left.
  - intros t Hin'. apply Hbucket. now apply entries_tag.
Qed.

(** The hypotheses of C1 hold of the three notes of the example. *)
Lemma C1_word_grouping_witness :
  exists survivors d,
    res_bind (iter (JArr example_notes)) (select_model "Words") = Ok survivors /\
    survivors = filter (has_model "Words") example_notes /\
    Main.group survivors = Ok d /\
    (forall n w tags, In n survivors -> word_note n w tags ->
       (exists ws, assoc "all" d = Some ws /\ In w ws) /\
       (tags = [] -> exists ws, assoc "no-tag" d = Some ws /\ In w ws) /\
       (forall t, In t tags -> exists ws, assoc t d = Some ws /\ In w ws)) /\
    (forall t ws, assoc t d = Some ws -> ascending ws).
Proof.
  apply (proj1 C1_word_grouping example_notes).
  - intros n [<-|[<-|[<-|[]]]]; eexists; reflexivity.
  - intros n [<-|[<-|[<-|[]]]] H; try discriminate H.
    + exists "b", []. split; reflexivity.
    + exists "a", ["noun"]. split; reflexivity.
Defined.

End WordPipeline.

(** ** No deduplication in the word pipeline *)

Section NoDedup.
Import Py AnkiConnect Spec.

Lemma filter_eqb_absent (t : string) (l : list string) :
  ~ In t l -> filter (String.eqb t) l = [].
Proof.
  induction l as [|x l IH]; intros Hno; [reflexivity|].
  cbn [filter]. destruct (t =? x) eqn:Hx.
  - apply String.eqb_eq in Hx. subst x. exfalso. apply Hno. now left.
  - apply IH. intros Hin. apply Hno. now right.
Qed.

Lemma entries_all_untagged (typed : list (string * list string)) :
  (forall w tags, In (w, tags) typed -> ~ In "all" tags) ->
  flat_map (entries "all") typed = map fst typed.
Proof.
  induction typed as [|[w tags] typed IH]; intros H; [reflexivity|].
  cbn [flat_map map fst]. rewrite IH by (intros; eapply H; right; eauto).
  assert (Hno : ~ In "all" tags) by (eapply H; left; reflexivity).
  unfold entries. rewrite String.eqb_refl.
  destruct tags as [|t tags]; [reflexivity|].
  now rewrite (filter_eqb_absent _ _ Hno).
Qed.

Lemma count_occ_entries (t w : string) (typed : list (string * list string)) :
  List.length (filter (carries t w) typed)
  <= count_occ string_dec (flat_map (entries t) typed) w.
Proof.
  induction typed as [|[w' tags] typed IH]; [simpl; lia|].
  cbn [flat_map filter]. rewrite count_occ_app.
  destruct (carries t w (w', tags)) eqn:Hc; [|lia].
  unfold carries in Hc. apply andb_true_iff in Hc. destruct Hc as [Hw Ht].
  apply String.eqb_eq in Hw. apply contains_in in Ht. simpl in Hw, Ht. subst w'.
  assert (Hin : In w (entries t (w, tags))) by now apply entries_tag.
  apply (count_occ_In string_dec) in Hin. simpl List.length. lia.
Qed.

(** C10 (amended): on notes none of which is tagged "all", grouping
    succeeds and the "all" bucket holds exactly one entry per note: it is a
    rearrangement of the notes' words, so a word carried by two notes stands
    twice in it; and in every bucket a word stands at least once for each
    note that carries it with that tag.  Nothing is deduplicated. *)
Theorem C10_no_dedup_without_all_tag
    (words : list json) (typed : list (string * list string)) :
  Forall2 (fun n wt => word_note n (fst wt) (snd wt)) words typed ->
  (forall w tags, In (w, tags) typed -> ~ In "all" tags) ->
  exists d all,
    Main.group words = Ok d /\
    assoc "all" d = Some all /\
    Permutation (map fst typed) all /\
    List.length all = List.length words /\
    (forall w, count_occ string_dec all w = count_occ string_dec (map fst typed) w) /\
    (forall t w, List.length (filter (carries t w) typed)
                 <= count_occ string_dec (bucket t d) w).
Proof.
  intros Ht Hall.
  destruct (group_spec _ _ Ht) as (d & Hd & Hb & _ & Ha & _ & _).
  destruct (assoc "all" d) as [all|] eqn:Hassoc; [|congruence].
  assert (Heq : all = sorted (map fst typed)).
  { rewrite <- (entries_all_untagged _ Hall), <- Hb.
    unfold bucket. now rewrite Hassoc. }
  exists d, all. split; [assumption|]. split; [exact Hassoc|].
  assert (Hperm : Permutation (map fst typed) all)
    by (rewrite Heq; apply sorted_perm).
  split; [assumption|]. split; [|split].
  - rewrite <- (Permutation_length Hperm), length_map.
    symmetry. eapply Forall2_length; eauto.
  - intros w. symmetry. revert w. now apply (Permutation_count_occ string_dec).
  - intros t w. rewrite Hb.
    rewrite <- (proj1 (Permutation_count_occ string_dec _ _) (sorted_perm _) w).
    apply count_occ_entries.
Qed.

(** Two notes with the same word and tag: the hypotheses of C10 hold and
    the word stands twice in both buckets. *)
Lemma C10_no_dedup_without_all_tag_witness :
  exists d all,
    Main.group [note "Words" ["verb"] [("Word", "byc")];
                note "Words" ["verb"] [("Word", "byc")]] = Ok d /\
    assoc "all" d = Some all /\
    Permutation (map fst [("byc", ["verb"]); ("byc", ["verb"])]) all /\
    List.length all = 2 /\
    (forall w, count_occ string_dec all w
               = count_occ string_dec (map fst [("byc", ["verb"]); ("byc", ["verb"])]) w) /\
    (forall t w, List.length (filter (carries t w) [("byc", ["verb"]); ("byc", ["verb"])])
                 <= count_occ string_dec (bucket t d) w).
Proof.
  apply (C10_no_dedup_without_all_tag
           [note "Words" ["verb"] [("Word", "byc")];
            note "Words" ["verb"] [("Word", "byc")]]
           [("byc", ["verb"]); ("byc", ["verb"])]).
  - repeat constructor.
  - intros w tags Hin Htag.
    destruct Hin as [Heq|[Heq|[]]]; inversion Heq; subst;
      destruct Htag as [Hx|[]]; discriminate Hx.
Defined.

(** C10 as stated fails on a note tagged "all": the one note leaves two
    entries in the "all" bucket. *)
Lemma C10_counterexample :
  Main.group [note_tagged_all] = Ok [("all", ["a"; "a"]); ("no-tag", [])] /\
  List.length ["a"; "a"] <> List.length [note_tagged_all].
Proof. split; [reflexivity|discriminate]. Qed.

End NoDedup.

(** ** The writers *)

Section Writers.
Import Py Spec.

Lemma append_nil_r (s : string) : (s ++ "")%string = s.
Proof. induction s as [|a s IH]; simpl; congruence. Qed.

Lemma append_assoc (s1 s2 s3 : string) :
  ((s1 ++ s2) ++ s3)%string = (s1 ++ (s2 ++ s3))%string.
Proof. induction s1 as [|a s1 IH]; simpl; congruence. Qed.

Lemma write_words_rest (words : list string) (f : string) :
  Main.write_words words false f
  = (f ++ String.concat "" (map (fun w => ", " ++ w) words))%string.
Proof.
  revert f. induction words as [|w words IH]; intros f.
  - simpl. now rewrite append_nil_r.
  - cbn [Main.write_words negb map]. rewrite IH.
    destruct words as [|w' words].
    + cbn [map String.concat]. now rewrite !append_assoc, append_nil_r.
    + change (String.concat "" ((", " ++ w) :: map (fun w => ", " ++ w) (w' :: words)))%string
        with ((", " ++ w) ++ "" ++ String.concat "" (map (fun w => ", " ++ w) (w' :: words)))%string.
      now rewrite !append_assoc.
Qed.

Lemma concat_comma_cons (w : string) (words : list string) :
  String.concat ", " (w :: words)
  = (w ++ String.concat "" (map (fun w => ", " ++ w) words))%string.
Proof.
  revert w. induction words as [|w' words IH]; intros w.
  - simpl. now rewrite append_nil_r.
  - change (String.concat ", " (w :: w' :: words))
      with (w ++ ", " ++ String.concat ", " (w' :: words))%string.
    rewrite IH. f_equal.
    destruct words as [|w'' words].
    + simpl. now rewrite !append_nil_r.
    + change (String.concat "" (map (fun w => ", " ++ w) (w' :: w'' :: words)))%string
        with ((", " ++ w') ++ "" ++ String.concat "" (map (fun w => ", " ++ w) (w'' :: words)))%string.
      now rewrite !append_assoc.
Qed.

Lemma write_words_first (words : list string) (f : string) :
  Main.write_words words true f = (f ++ String.concat ", " words)%string.
Proof.
  destruct words as [|w words].
  - simpl. now rewrite append_nil_r.
  - cbn [Main.write_words negb]. rewrite write_words_rest, concat_comma_cons.
    now rewrite append_assoc.
Qed.

Lemma concat_empty_cons (s : string) (l : list string) :
  String.concat "" (s :: l) = (s ++ String.concat "" l)%string.
Proof.
  destruct l as [|s' l]; [simpl; now rewrite append_nil_r|reflexivity].
Qed.

Lemma write_blocks_blocks (d : dict) (f : string) :
  Main.write_blocks d f
  = (f ++ String.concat "" (map (fun kv => block (fst kv) (snd kv)) d))%string.
Proof.
  revert f. induction d as [|[tag words] d IH]; intros f.
  - simpl. now rewrite append_nil_r.
  - cbn [Main.write_blocks map fst snd]. rewrite IH, write_words_first, concat_empty_cons.
    unfold block. now rewrite !append_assoc.
Qed.

Lemma write_lines_lines (l : list string) (f : string) :
  Sentences.write_lines l f
  = (f ++ String.concat "" (map (fun s => s ++ LF) l))%string.
Proof.
  revert f. induction l as [|s l IH]; intros f.
  - simpl. now rewrite append_nil_r.
  - cbn [Sentences.write_lines map]. rewrite IH, concat_empty_cons.
    now rewrite !append_assoc.
Qed.

Lemma read_write_file (path content : string) (fs : filesystem) :
  read_file path (write_file path content fs) = Some content.
Proof. unfold read_file, write_file. now rewrite String.eqb_refl. Qed.

(** C5: the word file written for a tag dictionary is, block after block
    in the order of the dictionary, the tag and a colon on one line, the
    words joined by a comma and a space on the next with nothing after the
    last word, and a blank line; written for the single tag "tag" with the
    words x and y and read back, the file is the block "tag:", "x, y" and a
    blank line, character for character. *)
Theorem C5_word_block_round_trip :
  (forall (tag : string) (words : list string) (rest : dict) (f : string),
     Main.write_blocks ((tag, words) :: rest) f
     = Main.write_blocks rest
         (f ++ (tag ++ ":" ++ LF ++ String.concat ", " words ++ LF ++ LF))%string) /\
  (forall (d : dict) (fs : filesystem),
     read_file "words.txt" (Main.store d fs)
     = Some (String.concat "" (map (fun kv => block (fst kv) (snd kv)) d))) /\
  (forall fs : filesystem,
     read_file "words.txt" (Main.store [("tag", ["x"; "y"])] fs)
     = Some ("tag:" ++ LF ++ "x, y" ++ LF ++ LF)%string).
Proof.
  split; [|split].
  - intros tag words rest f. cbn [Main.write_blocks].
    rewrite write_words_first. now rewrite !append_assoc.
  - intros d fs. unfold Main.store. rewrite read_write_file.
    now rewrite write_blocks_blocks.
  - intros fs. reflexivity.
Qed.

End Writers.

(** ** The sentence pipeline *)

Section SentencePipeline.
Import Py Spec.

Lemma concatenation_joined (n : json) (f : string * string * string * string * string) :
  five_fields n f -> Sentences.concatenation n = Ok (joined f).
Proof.
  destruct f as [[[[before cloze] between] second] after].
  intros (H1 & H2 & H3 & H4 & H5). unfold Sentences.concatenation.
  rewrite H1, H2, H3, H4, H5. cbn [res_bind joined].
  now rewrite !append_assoc.
Qed.

Lemma concatenations_joined (sentences : list json)
    (fields : list (string * string * string * string * string)) :
  Forall2 five_fields sentences fields ->
  Sentences.concatenations sentences = Ok (map joined fields).
Proof.
  induction 1 as [|n f sentences fields Hn _ IH]; [reflexivity|].
  cbn [Sentences.concatenations map].
  now rewrite (concatenation_joined _ _ Hn), IH.
Qed.

(** C4: for notes that carry the five cloze fields, the sentence pipeline
    joins the five values of each note in the fixed order with nothing
    between them, sorts the strings and drops repeats: the result is in
    ascending order, holds no string twice and holds exactly the strings
    joined; it is written one to a line to [sentences.txt].  Joined strings
    bb, aa, aa give aa, bb. *)
Theorem C4_sentences_sorted_unique
    (sentences : list json)
    (fields : list (string * string * string * string * string)) :
  Forall2 five_fields sentences fields ->
  exists out,
    Sentences.process sentences = Ok out /\
    out = fromkeys (sorted (map joined fields)) /\
    ascending out /\
    NoDup out /\
    (forall s, In s out <-> In s (map joined fields)) /\
    (forall fs,
       exists fs',
         Sentences.process_and_store sentences fs = Ok fs' /\
         read_file "sentences.txt" fs'
         = Some (String.concat "" (map (fun s => s ++ LF)%string out))) /\
    (map joined fields = ["bb"; "aa"; "aa"] -> out = ["aa"; "bb"]).
Proof.
  intros H. exists (fromkeys (sorted (map joined fields))).
  assert (Hp : Sentences.process sentences = Ok (fromkeys (sorted (map joined fields)))).
  { unfold Sentences.process. now rewrite (concatenations_joined _ _ H). }
  split; [exact Hp|]. split; [reflexivity|].
  split; [apply fromkeys_ascending, sorted_ascending|].
  split; [apply fromkeys_nodup|].
  split; [intros s; now rewrite fromkeys_in, sorted_in|].
  split.
  - intros fs. eexists. unfold Sentences.process_and_store. rewrite Hp.
    split; [reflexivity|].
    unfold Sentences.store. now rewrite read_write_file, write_lines_lines.
  - intros ->. reflexivity.
Qed.

(** Three cloze notes whose fields join to bb, aa, aa. *)
Lemma C4_sentences_sorted_unique_witness :
  exists out,
    Sentences.process example_sentences = Ok out /\
    out = fromkeys (sorted (map joined example_fields)) /\
    ascending out /\
    NoDup out /\
    (forall s, In s out <-> In s (map joined example_fields)) /\
    (forall fs,
       exists fs',
         Sentences.process_and_store example_sentences fs = Ok fs' /\
         read_file "sentences.txt" fs'
         = Some (String.concat "" (map (fun s => s ++ LF)%string out))) /\
    (map joined example_fields = ["bb"; "aa"; "aa"] -> out = ["aa"; "bb"]).
Proof.
  apply (C4_sentences_sorted_unique example_sentences example_fields).
  repeat constructor.
Defined.

End SentencePipeline.

(** ** The client *)

Section ClientFacts.
Import Py Run AnkiConnect Spec.
Local Open Scope run_scope.

Variable E : env.

Lemma error_field_truthy (m : list (string * json)) :
  truthy (error_field m) = true ->
  subscript (JObj m) "error" = Ok (error_field m).
Proof.
  unfold error_field, subscript. destruct (assoc "error" m); [reflexivity|discriminate].
Qed.

Lemma get_error_field (m : list (string * json)) :
  get (JObj m) "error" = Ok (error_field m).
Proof. unfold error_field, get. now destruct (assoc "error" m). Qed.

(** What [invoke] logs and returns once the response is decoded to a
    [dict]. *)
Lemma invoke_replies (action : string) (params : json) (m : list (string * json)) :
  replies E action params (JObj m) ->
  invoke E action params =
  (mk_record DEBUG ("Invoking AnkiConnect action: " ++ action
                    ++ " with params: " ++ str E params) None
   :: (if truthy (error_field m)
       then [mk_record ERROR ("AnkiConnect action '" ++ action ++ "' failed: "
                              ++ str E (error_field m)) None]
       else [mk_record DEBUG ("AnkiConnect action '" ++ action
                              ++ "' completed successfully") None]),
   if truthy (error_field m)
   then Raise (RuntimeError ("AnkiConnect error: " ++ str E (error_field m)))
   else match assoc "result" m with
        | Some payload => Ok payload
        | None => Raise (KeyError "result")
        end).
Proof.
  intros (r & Hpost & Hstatus & Hjson).
  unfold invoke, bind, lift, logger, raise, try_except.
  rewrite Hpost, Hstatus, Hjson, get_error_field.
  destruct (truthy (error_field m)) eqn:Herr.
  - rewrite (error_field_truthy _ Herr). reflexivity.
  - cbn [subscript]. destruct (assoc "result" m); reflexivity.
Qed.

Lemma invoke_connection_error (action : string) (params : json) (msg : string) :
  transport_raises E action params (requests_ConnectionError msg) ->
  invoke E action params =
  ([mk_record DEBUG ("Invoking AnkiConnect action: " ++ action
                     ++ " with params: " ++ str E params) None;
    mk_record ERROR
      "Failed to connect to AnkiConnect - check if Anki is running with AnkiConnect addon"
      None],
   Raise (ConnectionError
            "Could not connect to AnkiConnect. Is Anki running with AnkiConnect addon installed?")).
Proof.
  unfold invoke, bind, lift, logger, raise, try_except.
  intros [Hpost|(r & Hpost & [Hstatus|[Hstatus Hjson]])]; rewrite Hpost;
    try rewrite Hstatus; try rewrite Hjson; reflexivity.
Qed.

Lemma invoke_request_exception (action : string) (params : json) (msg : string) :
  transport_raises E action params (requests_RequestException msg) ->
  invoke E action params =
  ([mk_record DEBUG ("Invoking AnkiConnect action: " ++ action
                     ++ " with params: " ++ str E params) None;
    mk_record ERROR ("Request to AnkiConnect failed: " ++ msg) None],
   Raise (RuntimeError ("Request failed: " ++ msg))).
Proof.
  unfold invoke, bind, lift, logger, raise, try_except.
  intros [Hpost|(r & Hpost & [Hstatus|[Hstatus Hjson]])]; rewrite Hpost;
    try rewrite Hstatus; try rewrite Hjson; reflexivity.
Qed.

(** C2: when the response decodes to a JSON object, [invoke] returns the
    [result] payload, unaltered, if the object has no truthy (for a text:
    non-empty) [error] field, and raises the ApiError
    [RuntimeError("AnkiConnect error: <error>")], returning nothing, if it
    has one. *)
Theorem C2_invoke_result_or_api_error
    (action : string) (params : json) (m : list (string * json)) :
  replies E action params (JObj m) ->
  (truthy (error_field m) = false ->
   forall payload, assoc "result" m = Some payload ->
   result_of (invoke E action params) = Ok payload) /\
  (truthy (error_field m) = true ->
   result_of (invoke E action params)
   = Raise (RuntimeError ("AnkiConnect error: " ++ str E (error_field m)))) /\
  (forall s, assoc "error" m = Some (JStr s) -> s <> "" ->
   result_of (invoke E action params) = Raise (RuntimeError ("AnkiConnect error: " ++ s))).
Proof.
  intros H. rewrite (invoke_replies _ _ _ H). unfold result_of. cbn [snd].
  split; [|split].
  - intros -> payload ->. reflexivity.
  - intros ->. reflexivity.
  - intros s Hs Hne. unfold error_field. rewrite Hs. cbn [truthy str].
    destruct (String.eqb_spec s ""); [contradiction|reflexivity].
Qed.

(** C3: a connection failure of the transport makes [invoke] raise the
    builtin [ConnectionError] whose message asks whether Anki is running
    with the AnkiConnect addon; any other transport error makes it raise
    [RuntimeError("Request failed: <cause>")]; the two differ. *)
Theorem C3_transport_errors (action : string) (params : json) :
  (forall msg,
     transport_raises E action params (requests_ConnectionError msg) ->
     result_of (invoke E action params)
     = Raise (ConnectionError
                "Could not connect to AnkiConnect. Is Anki running with AnkiConnect addon installed?")) /\
  (forall msg,
     transport_raises E action params (requests_RequestException msg) ->
     result_of (invoke E action params) = Raise (RuntimeError ("Request failed: " ++ msg))) /\
  (forall msg msg', ConnectionError msg <> RuntimeError msg').
Proof.
  split; [|split].
  - intros msg H. now rewrite (invoke_connection_error _ _ _ H).
  - intros msg H. now rewrite (invoke_request_exception _ _ _ H).
  - discriminate.
Qed.

Lemma assoc_without_error (k : string) (m : list (string * json)) :
  (k =? "error") = false -> assoc k (without_error m) = assoc k m.
Proof.
  intros Hk. induction m as [|[k' v] m IH]; [reflexivity|].
  cbn [without_error filter fst assoc].
  destruct (k' =? "error") eqn:Hk'; cbn [negb assoc].
  - apply String.eqb_eq in Hk'. subst k'.
    rewrite String.eqb_sym, Hk. exact IH.
  - destruct (k' =? k); [reflexivity|exact IH].
Qed.

Lemma error_field_without_error (m : list (string * json)) :
  error_field (without_error m) = JNull.
Proof.
  unfold error_field. induction m as [|[k' v] m IH]; [reflexivity|].
  cbn [without_error filter fst].
  destruct (k' =? "error") eqn:Hk'; cbn [negb assoc]; [exact IH|].
  now rewrite Hk'.
Qed.

End ClientFacts.

Section ClientWorlds.
Import Py Run AnkiConnect Spec.

Lemma invoke_agree (E1 E2 : env) (action : string) (params : json) :
  repr E1 = repr E2 ->
  post E1 ANKI_CONNECT_URL (request action params)
  = post E2 ANKI_CONNECT_URL (request action params) ->
  invoke E1 action params = invoke E2 action params.
Proof.
  destruct E1 as [post1 repr1], E2 as [post2 repr2]. cbn [repr post].
  intros <- Hpost. unfold invoke, str. cbn [repr post]. now rewrite Hpost.
Qed.

(** C9: an [error] field that is present but falsy (the empty string,
    null, false or 0) is a success: [invoke] returns the [result] payload,
    and logs and returns exactly what it does for the same response without
    the [error] field; of a decoded response, [invoke] raises the ApiError
    exactly when the [error] value is truthy. *)
Theorem C9_falsy_error_is_success :
  (forall (E : env) (action : string) (params : json)
          (m : list (string * json)) (e payload : json),
     replies E action params (JObj m) ->
     assoc "error" m = Some e ->
     e = JStr "" \/ e = JNull \/ e = JBool false \/ e = JInt 0 ->
     assoc "result" m = Some payload ->
     result_of (invoke E action params) = Ok payload /\
     (forall E' : env,
        repr E' = repr E ->
        replies E' action params (JObj (without_error m)) ->
        invoke E' action params = invoke E action params)) /\
  (forall (E : env) (action : string) (params : json) (m : list (string * json)),
     replies E action params (JObj m) ->
     ((exists msg, result_of (invoke E action params) = Raise (RuntimeError msg))
      <-> truthy (error_field m) = true)).
Proof.
  split.
  - intros E action params m e payload H He Hfalsy Hres.
    assert (Hf : truthy (error_field m) = false).
    { unfold error_field. rewrite He.
      destruct Hfalsy as [ -> | [ -> | [ -> | -> ] ] ]; reflexivity. }
    rewrite (invoke_replies E _ _ _ H), Hf, Hres. split; [reflexivity|].
    intros E' Hrepr H'. rewrite (invoke_replies E' _ _ _ H').
    rewrite error_field_without_error, assoc_without_error, Hres by reflexivity.
    unfold str. now rewrite Hrepr.
  - intros E action params m H. rewrite (invoke_replies E _ _ _ H).
    unfold result_of. cbn [snd].
    destruct (truthy (error_field m)); split; intros H'; try reflexivity.
    + eexists. reflexivity.
    + destruct H' as [msg Hmsg]. destruct (assoc "result" m); discriminate.
    + discriminate.
Qed.

Lemma always_replies_replies (body : json) (action : string) (params : json) :
  replies (always_replies body) action params body.
Proof. eexists. repeat split. Qed.

(** C2 at work: a response without error gives its payload, a response
    with an error message the ApiError with that message. *)
Lemma C2_invoke_result_or_api_error_witness :
  result_of (invoke (always_replies (JObj [("result", JArr [JInt 1; JInt 2]); ("error", JNull)]))
               "findNotes" deck_request)
  = Ok (JArr [JInt 1; JInt 2]) /\
  result_of (invoke (always_replies (JObj [("result", JNull); ("error", JStr "deck was not found")]))
               "findNotes" deck_request)
  = Raise (RuntimeError "AnkiConnect error: deck was not found").
Proof.
  split.
  - apply (proj1 (C2_invoke_result_or_api_error _ _ _ _ (always_replies_replies _ _ _)));
      reflexivity.
  - apply (proj2 (proj2 (C2_invoke_result_or_api_error _ _ _ _ (always_replies_replies _ _ _)))
             "deck was not found"); [reflexivity|discriminate].
Defined.

(** C3 at work: a refused connection and a timeout. *)
Lemma C3_transport_errors_witness :
  result_of (invoke (always_fails (requests_ConnectionError "Connection refused"))
               "findNotes" deck_request)
  = Raise (ConnectionError
             "Could not connect to AnkiConnect. Is Anki running with AnkiConnect addon installed?") /\
  result_of (invoke (always_fails (requests_RequestException "Read timed out."))
               "findNotes" deck_request)
  = Raise (RuntimeError "Request failed: Read timed out.").
Proof.
  split.
  - apply (proj1 (C3_transport_errors _ "findNotes" deck_request) "Connection refused").
    left. reflexivity.
  - apply (proj1 (proj2 (C3_transport_errors _ "findNotes" deck_request)) "Read timed out.").
    left. reflexivity.
Defined.

(** C9 at work: an empty error string beside the payload. *)
Lemma C9_falsy_error_is_success_witness :
  result_of (invoke (always_replies (JObj [("result", JArr [JInt 1]); ("error", JStr "")]))
               "findNotes" deck_request)
  = Ok (JArr [JInt 1]).
Proof.
  apply (proj1 (proj1 C9_falsy_error_is_success
                  (always_replies (JObj [("result", JArr [JInt 1]); ("error", JStr "")]))
                  "findNotes" deck_request
                  [("result", JArr [JInt 1]); ("error", JStr "")] (JStr "") (JArr [JInt 1])
                  (always_replies_replies _ _ _) eq_refl (or_introl eq_refl) eq_refl)).
Defined.

End ClientWorlds.

(** ** The fetch stage and the script *)

Section FetchFacts.
Import Py Run AnkiConnect Spec.

Lemma invoke_answers (E : env) (action : string) (params payload : json) :
  answers E action params payload ->
  invoke E action params =
  ([mk_record DEBUG ("Invoking AnkiConnect action: " ++ action
                     ++ " with params: " ++ str E params) None;
    mk_record DEBUG ("AnkiConnect action '" ++ action ++ "' completed successfully") None],
   Ok payload).
Proof.
  intros (m & H & Hf & Hp). now rewrite (invoke_replies E _ _ _ H), Hf, Hp.
Qed.

Lemma index_contains (x : string) (l : list string) :
  contains x l = true -> exists i, index x l = Ok i.
Proof.
  induction l as [|y l IH]; [discriminate|].
  unfold contains. cbn [existsb index]. rewrite (String.eqb_sym x y).
  destruct (y =? x); [eexists; reflexivity|].
  intros H. destruct (IH H) as [i Hi]. rewrite Hi. eexists. reflexivity.
Qed.

Lemma select_model_none (model : string) (notes : list json) :
  Forall (fun n => exists m, subscript n "modelName" = Ok m /\ eq_str m model = false) notes ->
  select_model model notes = Ok [].
Proof.
  induction 1 as [|n notes (m & Hm & Hne) _ IH]; [reflexivity|].
  cbn [select_model]. rewrite Hm. cbn [res_bind]. rewrite IH. cbn [res_bind].
  now rewrite Hne.
Qed.

Lemma get_words_template_missing (E : env) :
  template_missing E ->
  exists log,
    Main.get_words E = (log, Ok None) /\
    no_error_record log /\
    warned log "'Word' template not found in the 'Words' model".
Proof.
  intros (t & Ht & Hc). unfold templates_request in Ht.
  unfold Main.get_words, get_model_templates.
  rewrite (invoke_answers _ _ _ _ Ht). run_step. rewrite Hc. run_step.
  eexists. split; [reflexivity|]. split.
  - repeat constructor; discriminate.
  - cbn. auto.
Qed.

Lemma get_words_deck_empty (E : env) :
  deck_empty E ->
  exists log,
    Main.get_words E = (log, Ok None) /\
    no_error_record log /\
    warned log "No notes found in Polish deck".
Proof.
  intros [(t & Ht & Hc) Hd]. unfold templates_request in Ht. unfold deck_request in Hd.
  destruct (index_contains _ _ Hc) as [i Hi].
  unfold Main.get_words, get_model_templates, find_notes.
  rewrite (invoke_answers _ _ _ _ Ht). run_step. rewrite Hc, Hi. run_step.
  rewrite (invoke_answers _ _ _ _ Hd). run_step.
  eexists. split; [reflexivity|]. split.
  - repeat constructor; discriminate.
  - cbn. auto.
Qed.

Lemma get_words_no_matching_note (E : env) :
  no_matching_note E ->
  exists log,
    Main.get_words E = (log, Ok None) /\
    no_error_record log /\
    warned log "No notes found with 'Words' model in Polish deck".
Proof.
  intros [(t & Ht & Hc) (id & ids & notes & Hd & Hn & Hnone)].
  unfold templates_request in Ht. unfold deck_request in Hd. unfold notes_request in Hn.
  destruct (index_contains _ _ Hc) as [i Hi].
  unfold Main.get_words, get_model_templates, find_notes, get_note_info.
  rewrite (invoke_answers _ _ _ _ Ht). run_step. rewrite Hc, Hi. run_step.
  rewrite (invoke_answers _ _ _ _ Hd). run_step.
  rewrite (invoke_answers _ _ _ _ Hn). run_step.
  rewrite (select_model_none _ _ Hnone). run_step.
  eexists. split; [reflexivity|]. split.
  - repeat constructor; discriminate.
  - cbn. auto 10.
Qed.

Lemma main_no_words (E : env) (fs : filesystem) (log : list record) :
  Main.get_words E = (log, Ok None) ->
  Main.main E fs =
  (mk_record INFO "=== Starting Anki Fetch ===" None
   :: log ++ [mk_record INFO "=== End of Anki Fetch ===" None;
              mk_record WARNING "No words were retrieved from Anki." None],
   (SystemExit 0, fs)).
Proof.
  intros H. unfold Main.main. rewrite H. run_step.
  now rewrite <- app_assoc.
Qed.

Lemma no_error_record_app (l1 l2 : list record) :
  no_error_record l1 -> no_error_record l2 -> no_error_record (l1 ++ l2).
Proof. unfold no_error_record. intros. now apply Forall_app. Qed.

(** C6: when the "Word" template is missing from the model's templates,
    or the deck query gives no note id, or no fetched note has the model
    "Words", the fetch yields [None], the script calls [exit(0)] with the
    files as they were (nothing is written), no exception escapes, no
    record is logged at error level and the warnings are logged. *)
Theorem C6_no_data_exits_cleanly (E : env) (fs : filesystem) :
  template_missing E \/ deck_empty E \/ no_matching_note E ->
  result_of (Main.get_words E) = Ok None /\
  snd (Main.main E fs) = (SystemExit 0, fs) /\
  fatal (fst (snd (Main.main E fs))) = false /\
  no_error_record (fst (Main.main E fs)) /\
  (exists msg, warned (log_of (Main.get_words E)) msg) /\
  warned (fst (Main.main E fs)) "No words were retrieved from Anki.".
Proof.
  intros H.
  assert (Hlog : exists log msg,
             Main.get_words E = (log, Ok None) /\ no_error_record log /\ warned log msg).
  { destruct H as [H|[H|H]];
      [ destruct (get_words_template_missing E H) as (log & H1 & H2 & H3)
      | destruct (get_words_deck_empty E H) as (log & H1 & H2 & H3)
      | destruct (get_words_no_matching_note E H) as (log & H1 & H2 & H3) ];
      eauto. }
  destruct Hlog as (log & msg & Hg & Hne & Hw).
  rewrite (main_no_words E fs log Hg), Hg. cbn [fst snd result_of log_of].
  repeat split; eauto.
  - constructor; [discriminate|].
    apply no_error_record_app; [assumption|repeat constructor; discriminate].
  - unfold warned, emitted. cbn [filter enabled levelname].
    right. rewrite filter_app. apply in_or_app. right. cbn. auto.
Qed.

Lemma scripted_answers (script : list (string * json)) (action : string)
    (params payload : json) :
  assoc action script = Some payload ->
  answers (scripted script) action params payload.
Proof.
  intros H. exists [("result", payload); ("error", JNull)].
  split; [|split; reflexivity].
  eexists. split; [cbn [scripted post request action_of]; rewrite H; reflexivity|].
  split; reflexivity.
Qed.

(** C6 at work, once for each of the three conditions. *)
Lemma C6_no_data_exits_cleanly_witness :
  snd (Main.main world_without_template no_files) = (SystemExit 0, no_files) /\
  snd (Main.main world_empty_deck no_files) = (SystemExit 0, no_files) /\
  snd (Main.main world_other_model no_files) = (SystemExit 0, no_files).
Proof.
  split; [|split].
  - apply (C6_no_data_exits_cleanly world_without_template no_files).
    left. eexists. split; [apply scripted_answers; reflexivity|reflexivity].
  - apply (C6_no_data_exits_cleanly world_empty_deck no_files).
    right. left. split; [|apply scripted_answers; reflexivity].
    eexists. split; [apply scripted_answers; reflexivity|reflexivity].
  - apply (C6_no_data_exits_cleanly world_other_model no_files).
    right. right. split.
    + eexists. split; [apply scripted_answers; reflexivity|reflexivity].
    + exists (JInt 7), [], [note "Other" [] [("Word", "z")]].
      split; [apply scripted_answers; reflexivity|].
      split; [apply scripted_answers; reflexivity|].
      repeat constructor. eexists. split; reflexivity.
Defined.

Lemma get_words_unreachable (E : env) :
  unreachable E ->
  Main.get_words E =
  ([mk_record INFO "Starting audio enablement process for Polish deck" None;
    mk_record DEBUG "Retrieving template information for 'Words' model" None;
    mk_record DEBUG "Retrieving templates for model: Words" None;
    mk_record DEBUG ("Invoking AnkiConnect action: modelTemplates with params: "
                     ++ str E templates_request) None;
    mk_record ERROR
      "Failed to connect to AnkiConnect - check if Anki is running with AnkiConnect addon"
      None;
    mk_record ERROR "Error during audio enablement process: "
      (Some (ConnectionError
               "Could not connect to AnkiConnect. Is Anki running with AnkiConnect addon installed?"))],
   Ok None).
Proof.
  intros H.
  destruct (H ANKI_CONNECT_URL (request "modelTemplates" templates_request)) as [msg Hmsg].
  unfold Main.get_words, get_model_templates.
  pose proof (invoke_connection_error E "modelTemplates" templates_request msg
                (or_introl Hmsg)) as Hi.
  unfold templates_request in Hi. rewrite Hi. reflexivity.
Qed.

(** C7 (amended): when no request reaches the endpoint, the fetch logs the
    connection failure at error level, with the [ConnectionError] attached,
    and yields [None]; the script then logs its warning and calls
    [exit(0)] with the files as they were: the exit of the runs without
    qualifying data, not an abnormal one. *)
Theorem C7_unreachable_is_logged_then_clean_exit (E : env) (fs : filesystem) :
  unreachable E ->
  result_of (Main.get_words E) = Ok None /\
  snd (Main.main E fs) = (SystemExit 0, fs) /\
  fatal (fst (snd (Main.main E fs))) = false /\
  In (mk_record ERROR "Error during audio enablement process: "
        (Some (ConnectionError
                 "Could not connect to AnkiConnect. Is Anki running with AnkiConnect addon installed?")))
     (emitted (fst (Main.main E fs))) /\
  warned (fst (Main.main E fs)) "No words were retrieved from Anki.".
Proof.
  intros H. pose proof (get_words_unreachable E H) as Hg.
  rewrite (main_no_words E fs _ Hg), Hg. cbn [fst snd result_of].
  repeat split.
  - cbn. auto 10.
  - unfold warned. cbn. auto 10.
Qed.

Lemma world_down_unreachable : unreachable world_down.
Proof. intros url body. eexists. reflexivity. Qed.

(** C7 at work in a world where every connection is refused. *)
Lemma C7_unreachable_is_logged_then_clean_exit_witness :
  snd (Main.main world_down no_files) = (SystemExit 0, no_files).
Proof.
  apply (C7_unreachable_is_logged_then_clean_exit world_down no_files world_down_unreachable).
Defined.

(** C7 as stated fails: with every connection refused the run is not
    fatal; the fetch yields the absent result and the script exits with
    status 0, as it does when the template is missing. *)
Lemma C7_counterexample :
  unreachable world_down /\
  result_of (Main.get_words world_down) = Ok None /\
  fatal (fst (snd (Main.main world_down no_files))) = false /\
  snd (Main.main world_down no_files) = snd (Main.main world_without_template no_files).
Proof.
  split; [exact world_down_unreachable|]. repeat split.
Qed.

End FetchFacts.

(** ** The template's ordinal *)

Section TemplateOrdinal.
Import Py Run AnkiConnect Spec.

Lemma try_except_bind_ok {A B} (m : M A) (k : A -> M B) (h : exn -> M B)
    (l : list record) (a : A) :
  m = (l, Ok a) ->
  try_except (bind m k) h
  = (l ++ log_of (try_except (k a) h), result_of (try_except (k a) h)).
Proof.
  intros ->. unfold bind, try_except, log_of, result_of.
  destruct (k a) as [l' [b|e|]]; cbn [fst snd]; try reflexivity.
  destruct (h e) as [l'' r]. cbn [fst snd]. now rewrite app_assoc.
Qed.

Lemma bind_ext {A B} (m : M A) (k1 k2 : A -> M B) :
  (forall a, k1 a = k2 a) -> bind m k1 = bind m k2.
Proof.
  intros H. destruct m as [l [a|e|]]; cbn [bind]; [|reflexivity|reflexivity].
  now rewrite H.
Qed.

Lemma get_words_template_present (E : env) (t : list (string * json)) :
  answers E "modelTemplates" templates_request (JObj t) ->
  contains "Word" (map fst t) = true ->
  result_of (Main.get_words E) = result_of (after_template_check E) /\
  emitted (log_of (Main.get_words E))
  = mk_record INFO "Starting audio enablement process for Polish deck" None
    :: emitted (log_of (after_template_check E)).
Proof.
  intros Ht Hc. unfold templates_request in Ht.
  destruct (index_contains _ _ Hc) as [i Hi].
  assert (Hgt : exists l, get_model_templates E "Words" = (l, Ok (JObj t))
                          /\ emitted l = []).
  { unfold get_model_templates. rewrite (invoke_answers _ _ _ _ Ht).
    eexists. split; reflexivity. }
  destruct Hgt as (lt & Hgt & Hlt).
  unfold Main.get_words.
  rewrite (try_except_bind_ok (logger INFO _) _ _ _ tt eq_refl).
  rewrite (try_except_bind_ok (logger DEBUG _) _ _ _ tt eq_refl).
  rewrite (try_except_bind_ok _ _ _ _ _ Hgt).
  rewrite (try_except_bind_ok (lift (keys (JObj t))) _ _ _ _ eq_refl).
  rewrite (try_except_bind_ok (logger DEBUG _) _ _ _ tt eq_refl).
  rewrite Hc. cbn [negb]. rewrite Hi.
  rewrite (try_except_bind_ok (lift (Ok i)) _ _ _ _ eq_refl).
  rewrite (try_except_bind_ok (logger DEBUG _) _ _ _ tt eq_refl).
  fold (after_template_check E).
  split; [reflexivity|].
  cbn [log_of fst app]. unfold emitted in *. cbn [filter enabled levelname].
  now rewrite filter_app, Hlt.
Qed.

Lemma after_template_check_agree (E1 E2 : env) :
  repr E1 = repr E2 ->
  (forall url body, action_of body <> "modelTemplates" -> post E1 url body = post E2 url body) ->
  after_template_check E1 = after_template_check E2.
Proof.
  intros Hrepr Hpost. unfold after_template_check. f_equal.
  apply bind_ext. intros _.
  assert (Hfind : find_notes E1 "Polish" = find_notes E2 "Polish").
  { unfold find_notes. apply bind_ext. intros _.
    apply (invoke_agree _ _ _ _ Hrepr), Hpost. discriminate. }
  rewrite Hfind. apply bind_ext. intros note_ids.
  destruct (negb (truthy note_ids)); [reflexivity|].
  apply bind_ext. intros n. apply bind_ext. intros _.
  assert (Hinfo : get_note_info E1 note_ids = get_note_info E2 note_ids).
  { unfold get_note_info. apply bind_ext. intros n'. apply bind_ext. intros _.
    apply (invoke_agree _ _ _ _ Hrepr), Hpost. discriminate. }
  now rewrite Hinfo.
Qed.

Lemma main_by_fetch (E1 E2 : env) (fs : filesystem) :
  result_of (Main.get_words E1) = result_of (Main.get_words E2) ->
  emitted (log_of (Main.get_words E1)) = emitted (log_of (Main.get_words E2)) ->
  snd (Main.main E1 fs) = snd (Main.main E2 fs) /\
  emitted (fst (Main.main E1 fs)) = emitted (fst (Main.main E2 fs)).
Proof.
  unfold Main.main, result_of, log_of.
  destruct (Main.get_words E1) as [l1 r1], (Main.get_words E2) as [l2 r2].
  cbn [fst snd]. intros <- Hl.
  destruct r1 as [[[|n ns]|]| |]; run_step;
    try destruct (Main.process_and_store (n :: ns) fs); cbn [snd fst];
    (split; [reflexivity|]);
    unfold emitted in *; cbn [filter enabled levelname];
    rewrite ?filter_app, ?app_nil_r; cbn [filter enabled levelname]; now rewrite Hl.
Qed.

(** C8: two worlds whose template lists both hold "Word", at whatever
    places, and that answer every other action alike: the fetch returns the
    same notes in both and logs the same records at the configured level,
    and the script ends the same way with the same files.  The ordinal goes
    into a debug record only. *)
Theorem C8_template_ordinal_has_no_effect
    (E1 E2 : env) (t1 t2 : list (string * json)) (fs : filesystem) :
  repr E1 = repr E2 ->
  (forall url body, action_of body <> "modelTemplates" -> post E1 url body = post E2 url body) ->
  answers E1 "modelTemplates" templates_request (JObj t1) ->
  answers E2 "modelTemplates" templates_request (JObj t2) ->
  contains "Word" (map fst t1) = true ->
  contains "Word" (map fst t2) = true ->
  result_of (Main.get_words E1) = result_of (Main.get_words E2) /\
  emitted (log_of (Main.get_words E1)) = emitted (log_of (Main.get_words E2)) /\
  snd (Main.main E1 fs) = snd (Main.main E2 fs) /\
  emitted (fst (Main.main E1 fs)) = emitted (fst (Main.main E2 fs)).
Proof.
  intros Hrepr Hpost H1 H2 Hc1 Hc2.
  destruct (get_words_template_present E1 t1 H1 Hc1) as [Hr1 Hl1].
  destruct (get_words_template_present E2 t2 H2 Hc2) as [Hr2 Hl2].
  pose proof (after_template_check_agree E1 E2 Hrepr Hpost) as Hsame.
  assert (Hr : result_of (Main.get_words E1) = result_of (Main.get_words E2))
    by (rewrite Hr1, Hr2, Hsame; reflexivity).
  assert (Hl : emitted (log_of (Main.get_words E1)) = emitted (log_of (Main.get_words E2)))
    by (rewrite Hl1, Hl2, Hsame; reflexivity).
  split; [exact Hr|]. split; [exact Hl|].
  now apply main_by_fetch.
Qed.

Lemma scripted_agree (s1 s2 : list (string * json)) :
  (forall a, a <> "modelTemplates" -> assoc a s1 = assoc a s2) ->
  forall (url : string) (body : json),
    action_of body <> "modelTemplates" ->
    post (scripted s1) url body = post (scripted s2) url body.
Proof.
  intros H url body Hne. cbn [scripted post]. now rewrite (H _ Hne).
Qed.

(** C8 at work: "Word" first of two templates in one world, second in the
    other; both runs keep the same two notes. *)
Lemma C8_template_ordinal_has_no_effect_witness :
  index "Word" ["Word"; "Reverse"] = Ok 0 /\
  index "Word" ["Reverse"; "Word"] = Ok 1 /\
  result_of (Main.get_words world_word_first) = result_of (Main.get_words world_word_second) /\
  snd (Main.main world_word_first no_files) = snd (Main.main world_word_second no_files).
Proof.
  split; [reflexivity|]. split; [reflexivity|].
  destruct (C8_template_ordinal_has_no_effect world_word_first world_word_second
              [("Word", JStr "{{Word}}"); ("Reverse", JStr "{{Meaning}}")]
              [("Reverse", JStr "{{Meaning}}"); ("Word", JStr "{{Word}}")]
              no_files) as (H1 & _ & H2 & _).
  - reflexivity.
  - apply scripted_agree. intros a Ha. cbn [assoc].
    destruct ("modelTemplates" =? a) eqn:Hq; [|reflexivity].
    apply String.eqb_eq in Hq. congruence.
  - apply scripted_answers. reflexivity.
  - apply scripted_answers. reflexivity.
  - reflexivity.
  - reflexivity.
  - split; assumption.
Defined.

End TemplateOrdinal.

(** * Further properties of the two scripts *)

(** ** What the fetch can return *)

Section FetchResult.
Import Py Run AnkiConnect Spec More.

Lemma select_model_kept (model : string) (notes kept : list json) :
  select_model model notes = Ok kept ->
  Forall (fun n => has_model model n = true) kept /\
  kept = filter (has_model model) notes.
Proof.
  revert kept. induction notes as [|n notes IH]; intros kept; cbn [select_model filter].
  - intros [= <-]. split; [constructor|reflexivity].
  - unfold has_model at 2.
    destruct (subscript n "modelName") as [m| |] eqn:Hm; cbn [res_bind]; try discriminate.
    destruct (select_model model notes) as [kept'| |]; cbn [res_bind]; try discriminate.
    destruct (IH kept' eq_refl) as [IH1 IH2].
    intros [= <-]. destruct (eq_str m model) eqn:He.
    + split; [|now rewrite IH2]. constructor; [|assumption].
      unfold has_model. now rewrite Hm.
    + split; assumption.
Qed.

Lemma get_words_results (E : env) :
  result_of (Main.get_words E) = Ok None \/
  result_of (Main.get_words E) = OutOfModel \/
  exists n ns,
    result_of (Main.get_words E) = Ok (Some (n :: ns)) /\
    Forall (fun n => has_model "Words" n = true) (n :: ns).
Proof.
  unfold Main.get_words. run_cases; auto;
    (right; right; do 2 eexists; split; [reflexivity|];
     match goal with
     | H : res_bind (iter ?v) _ = Ok _ |- _ =>
         destruct (iter v); cbn [res_bind] in H; try discriminate H;
         apply select_model_kept in H; apply H
     end).
Qed.

Lemma get_sentences_results (E : env) :
  result_of (Sentences.get_sentences E) = Ok None \/
  result_of (Sentences.get_sentences E) = OutOfModel \/
  exists n ns,
    result_of (Sentences.get_sentences E) = Ok (Some (n :: ns)) /\
    Forall (fun n => has_model "Custom Cloze" n = true) (n :: ns).
Proof.
  unfold Sentences.get_sentences. run_cases; auto;
    (right; right; do 2 eexists; split; [reflexivity|];
     match goal with
     | H : res_bind (iter ?v) _ = Ok _ |- _ =>
         destruct (iter v); cbn [res_bind] in H; try discriminate H;
         apply select_model_kept in H; apply H
     end).
Qed.

(** X1: whatever the server does, [get_words] raises nothing, and the
    notes it returns are at least one and all have the model name
    "Words". *)
Theorem get_words_never_raises (E : env) :
  (forall e, result_of (Main.get_words E) <> Raise e) /\
  (forall notes,
     result_of (Main.get_words E) = Ok (Some notes) ->
     notes <> [] /\ Forall (fun n => has_model "Words" n = true) notes).
Proof.
  destruct (get_words_results E) as [H|[H|(n & ns & H & Hm)]]; rewrite H;
    split; try discriminate.
  intros notes [= <-]. split; [discriminate|assumption].
Qed.

(** X1 at work: the two "Words" notes of the example are returned. *)
Lemma get_words_never_raises_witness :
  [note "Words" [] [("Word", "b")]; note "Words" ["noun"] [("Word", "a")]] <> [] /\
  Forall (fun n => has_model "Words" n = true)
    [note "Words" [] [("Word", "b")]; note "Words" ["noun"] [("Word", "a")]].
Proof.
  apply (proj2 (get_words_never_raises world_word_first)). reflexivity.
Defined.

(** X2: the same of [get_sentences] and the model name "Custom Cloze". *)
Theorem get_sentences_never_raises (E : env) :
  (forall e, result_of (Sentences.get_sentences E) <> Raise e) /\
  (forall notes,
     result_of (Sentences.get_sentences E) = Ok (Some notes) ->
     notes <> [] /\ Forall (fun n => has_model "Custom Cloze" n = true) notes).
Proof.
  destruct (get_sentences_results E) as [H|[H|(n & ns & H & Hm)]]; rewrite H;
    split; try discriminate.
  intros notes [= <-]. split; [discriminate|assumption].
Qed.

(** X2 at work: the three cloze notes are returned, the word note is
    not. *)
Lemma get_sentences_never_raises_witness :
  example_sentences <> [] /\
  Forall (fun n => has_model "Custom Cloze" n = true) example_sentences.
Proof.
  apply (proj2 (get_sentences_never_raises world_cloze)). reflexivity.
Defined.

End FetchResult.

(** ** What the scripts can do to the files and how they can end *)

Section ScriptOutcome.
Import Py Run AnkiConnect Spec More.





End ScriptOutcome.

(** ** The tag dictionary in full *)

Section TagDictOrder.
Import Py Run AnkiConnect Spec More.

Lemma dict_contains_keys (k : string) (d : dict) :
  dict_contains k d = contains k (map fst d).
Proof.
  unfold dict_contains, contains. induction d as [|[k' v] d IH]; [reflexivity|].
  cbn [existsb map fst]. now rewrite IH, (String.eqb_sym k k').
Qed.

Lemma keys_setitem (k : string) (v : list string) (d : dict) :
  map fst (dict_setitem k v d) = fromkeys_step (map fst d) k.
Proof.
  unfold fromkeys_step. rewrite <- dict_contains_keys.
  induction d as [|[k' v'] d IH]; [reflexivity|].
  unfold dict_contains in *. cbn [dict_setitem existsb map fst].
  destruct (k' =? k); cbn [orb map fst]; [reflexivity|].
  rewrite IH. now destruct (existsb (fun kv => fst kv =? k) d).
Qed.

Lemma fromkeys_step_present (k : string) (l : list string) :
  contains k l = true -> fromkeys_step l k = l.
Proof. unfold fromkeys_step. now intros ->. Qed.

Lemma contains_step (k k' : string) (l : list string) :
  contains k l = true -> contains k (fromkeys_step l k') = true.
Proof.
  unfold fromkeys_step. intros H. destruct (contains k' l); [assumption|].
  unfold contains in *. rewrite existsb_app, H. reflexivity.
Qed.

Lemma contains_step_same (k : string) (l : list string) :
  contains k (fromkeys_step l k) = true.
Proof.
  unfold fromkeys_step. destruct (contains k l) eqn:H; [assumption|].
  unfold contains. rewrite existsb_app. cbn [existsb].
  now rewrite String.eqb_refl, orb_true_r.
Qed.

Lemma contains_fold (k : string) (tags l : list string) :
  contains k l = true -> contains k (fold_left fromkeys_step tags l) = true.
Proof.
  revert l. induction tags as [|t tags IH]; intros l H; [assumption|].
  cbn [fold_left]. now apply IH, contains_step.
Qed.

Lemma keys_dict_append (k w : string) (d d' : dict) :
  dict_append k (Ok w) d = Ok d' -> map fst d' = map fst d.
Proof.
  unfold dict_append, dict_getitem.
  destruct (assoc k d) as [ws|] eqn:Ha; cbn [res_bind]; [|discriminate].
  intros [= <-]. rewrite keys_setitem. apply fromkeys_step_present.
  rewrite <- dict_contains_keys, dict_contains_assoc. now rewrite Ha.
Qed.

Lemma keys_add_tags (word : json) (w : string) (tags : list string) :
  Main.word_value word = Ok w ->
  forall d d',
    Main.add_tags word (map JStr tags) d = Ok d' ->
    map fst d' = fold_left fromkeys_step tags (map fst d).
Proof.
  intros Hw. induction tags as [|tag tags IH]; intros d d'.
  - cbn [map Main.add_tags fold_left]. now intros [= <-].
  - cbn [map Main.add_tags text res_bind fold_left]. rewrite Hw.
    set (d1 := if negb (dict_contains tag d) then dict_setitem tag [] d else d).
    assert (H1 : map fst d1 = fromkeys_step (map fst d) tag).
    { unfold d1. destruct (dict_contains tag d) eqn:Hc; cbn [negb].
      - symmetry. apply fromkeys_step_present. now rewrite <- dict_contains_keys.
      - apply keys_setitem. }
    destruct (dict_append tag (Ok w) d1) as [d2| |] eqn:Hd2; cbn [res_bind]; try discriminate.
    intros H. rewrite (IH _ _ H), (keys_dict_append _ _ _ _ Hd2), H1. reflexivity.
Qed.

Lemma keys_add_words (words : list json) (typed : list (string * list string)) :
  Forall2 (fun n wt => word_note n (fst wt) (snd wt)) words typed ->
  forall d d',
    Main.add_words words d = Ok d' ->
    map fst d' = fold_left fromkeys_step (tags_in_order typed) (map fst d).
Proof.
  induction 1 as [|n [w tags] words typed [Hw Htags] _ IH]; intros d d'.
  - cbn [Main.add_words tags_in_order flat_map fold_left]. now intros [= <-].
  - cbn [fst snd] in Hw, Htags. cbn [Main.add_words]. rewrite Hw.
    destruct (dict_append "all" (Ok w) d) as [d1| |] eqn:Hd1; cbn [res_bind]; try discriminate.
    rewrite Htags. cbn [res_bind]. rewrite truthy_tags.
    unfold tags_in_order. cbn [flat_map snd]. rewrite fold_left_app.
    fold (tags_in_order typed).
    rewrite <- (keys_dict_append _ _ _ _ Hd1).
    destruct tags as [|tag tags]; cbn [negb].
    + destruct (dict_append "no-tag" (Ok w) d1) as [d2| |] eqn:Hd2; cbn [res_bind];
        try discriminate.
      intros H. rewrite (IH _ _ H), (keys_dict_append _ _ _ _ Hd2). reflexivity.
    + cbn [iter res_bind].
      change (JStr tag :: map JStr tags) with (map JStr (tag :: tags)).
      destruct (Main.add_tags n (map JStr (tag :: tags)) d1) as [d2| |] eqn:Hd2;
        cbn [res_bind]; try discriminate.
      intros H. rewrite (IH _ _ H), (keys_add_tags _ _ _ Hw _ _ Hd2). reflexivity.
Qed.

Lemma dict_by_keys (d : dict) :
  NoDup (map fst d) -> d = map (fun t => (t, bucket t d)) (map fst d).
Proof.
  induction d as [|[k v] d IH]; [reflexivity|].
  cbn [map fst]. intros Hnd. inversion Hnd as [|? ? Hk Hd]; subst.
  unfold bucket at 1. cbn [assoc]. rewrite String.eqb_refl. f_equal.
  rewrite (IH Hd) at 1. apply map_ext_in. intros t Ht. f_equal.
  unfold bucket. cbn [assoc].
  destruct (String.eqb_spec k t); [subst; contradiction|reflexivity].
Qed.

(** The grouping and the file on notes that carry a word and tags. *)
Lemma group_keys_and_buckets (words : list json) (typed : list (string * list string))
    (fs : filesystem) :
  Forall2 (fun n wt => word_note n (fst wt) (snd wt)) words typed ->
  let order := fromkeys ("all" :: "no-tag" :: tags_in_order typed) in
  let d := map (fun t => (t, sorted (flat_map (entries t) typed))) order in
  Main.group words = Ok d /\
  NoDup order /\
  exists fs',
    Main.process_and_store words fs = Ok fs' /\
    read_file "words.txt" fs'
    = Some (String.concat "" (map (fun kv => block (fst kv) (snd kv)) d)).
Proof.
  intros H order d0.
  destruct (group_spec _ _ H) as (d & Hd & Hb & _).
  assert (Hkeys : map fst d = order).
  { unfold Main.group in Hd.
    destruct (Main.add_words words [("all", []); ("no-tag", [])]) as [d'| |] eqn:Hd';
      cbn [res_bind] in Hd; try discriminate Hd.
    injection Hd as <-.
    transitivity (map fst d'); [rewrite map_map; apply map_ext; reflexivity|].
    rewrite (keys_add_words _ _ H _ _ Hd'). reflexivity. }
  assert (Hnd : NoDup order) by apply fromkeys_nodup.
  assert (Heq : d = d0).
  { rewrite (dict_by_keys d) by (rewrite Hkeys; exact Hnd).
    rewrite Hkeys. unfold d0. apply map_ext. intros t. now rewrite Hb. }
  subst d. split; [exact Hd|]. split; [exact Hnd|].
  unfold Main.process_and_store. rewrite Hd. cbn [res_bind]. eexists.
  split; [reflexivity|].
  unfold Main.store. now rewrite read_write_file, write_blocks_blocks.
Qed.

(** X5: on notes that carry a word and tags, grouping gives the
    dictionary whose keys are "all", "no-tag" and then the tags in the
    order they are first met, each once, and whose list under a key is the
    sorted list of that key's entries; [process_and_store] writes the blocks
    of exactly that dictionary, in that order, to [words.txt]. *)
Theorem group_in_full (words : list json) (typed : list (string * list string))
    (fs : filesystem) :
  Forall2 (fun n wt => word_note n (fst wt) (snd wt)) words typed ->
  let order := fromkeys ("all" :: "no-tag" :: tags_in_order typed) in
  let d := map (fun t => (t, sorted (flat_map (entries t) typed))) order in
  Main.group words = Ok d /\
  NoDup order /\
  exists fs',
    Main.process_and_store words fs = Ok fs' /\
    read_file "words.txt" fs'
    = Some (String.concat "" (map (fun kv => block (fst kv) (snd kv)) d)).
Proof. exact (group_keys_and_buckets words typed fs). Qed.

(** X5 at work: three notes; "verb" is met before "noun". *)
Lemma group_in_full_witness :
  Main.group [note "Words" [] [("Word", "b")];
              note "Words" ["verb"; "noun"] [("Word", "c")];
              note "Words" ["noun"] [("Word", "a")]]
  = Ok [("all", ["a"; "b"; "c"]); ("no-tag", ["b"]); ("verb", ["c"]); ("noun", ["a"; "c"])].
Proof.
  exact (proj1 (group_in_full
                  [note "Words" [] [("Word", "b")];
                   note "Words" ["verb"; "noun"] [("Word", "c")];
                   note "Words" ["noun"] [("Word", "a")]]
                  [("b", []); ("c", ["verb"; "noun"]); ("a", ["noun"])]
                  no_files ltac:(repeat constructor))).
Defined.

End TagDictOrder.

(** ** The order of the notes *)

Section NoteOrder.
Import Py Run AnkiConnect Spec More.

Lemma assoc_by_keys {V} (f : string -> V) (t : string) (l : list string) :
  assoc t (map (fun k => (k, f k)) l) = if contains t l then Some (f t) else None.
Proof.
  unfold contains. induction l as [|k l IH]; [reflexivity|].
  cbn [map assoc existsb]. rewrite (String.eqb_sym t k).
  destruct (String.eqb_spec k t); [now subst|exact IH].
Qed.

Lemma contains_same (t : string) (l l' : list string) :
  (In t l <-> In t l') -> contains t l = contains t l'.
Proof.
  intros H. destruct (contains t l) eqn:H1, (contains t l') eqn:H2; try reflexivity.
  - apply contains_in, H, contains_in in H1. congruence.
  - apply contains_in, H, contains_in in H2. congruence.
Qed.

Lemma sorted_perm_eq (l l' : list string) : Permutation l l' -> sorted l = sorted l'.
Proof.
  intros H. apply sorted_unique; [|apply sorted_ascending].
  rewrite H. apply sorted_perm.
Qed.

Lemma tags_in_order_perm (typed typed' : list (string * list string)) :
  Permutation typed typed' -> Permutation (tags_in_order typed) (tags_in_order typed').
Proof. intros H. unfold tags_in_order. now apply Permutation_flat_map. Qed.

(** X6: the notes in another order give the same buckets, each with the
    same list; only the order of the tags' blocks in the file can differ. *)
Theorem buckets_do_not_depend_on_note_order
    (words words' : list json) (typed : list (string * list string)) :
  Forall2 (fun n wt => word_note n (fst wt) (snd wt)) words typed ->
  Permutation words words' ->
  exists d d',
    Main.group words = Ok d /\
    Main.group words' = Ok d' /\
    (forall t, assoc t d = assoc t d') /\
    Permutation (map fst d) (map fst d').
Proof.
  intros H Hp.
  destruct (Permutation_Forall2 Hp H) as (typed' & Hp' & H').
  destruct (group_keys_and_buckets words typed no_files H) as (Hd & _ & _).
  destruct (group_keys_and_buckets words' typed' no_files H') as (Hd' & _ & _).
  do 2 eexists. split; [exact Hd|]. split; [exact Hd'|].
  assert (Hin : forall t,
             In t (fromkeys ("all" :: "no-tag" :: tags_in_order typed)) <->
             In t (fromkeys ("all" :: "no-tag" :: tags_in_order typed'))).
  { intros t. rewrite !fromkeys_in. cbn [In].
    pose proof (tags_in_order_perm _ _ Hp') as Ht.
    split; (intros [?|[?|?]]; [auto|auto|right; right]);
      [eapply Permutation_in; eauto|eapply Permutation_in; [symmetry|]; eauto]. }
  split.
  - intros t.
    rewrite (assoc_by_keys (fun t => sorted (flat_map (entries t) typed))).
    rewrite (assoc_by_keys (fun t => sorted (flat_map (entries t) typed'))).
    rewrite (contains_same _ _ _ (Hin t)).
    rewrite (sorted_perm_eq _ _ (Permutation_flat_map (entries t) Hp')). reflexivity.
  - rewrite !map_map. cbn [fst]. rewrite !map_id.
    apply NoDup_Permutation; auto using fromkeys_nodup.
Qed.

(** X6 at work: two notes and the same two in the other order. *)
Lemma buckets_do_not_depend_on_note_order_witness :
  exists d d',
    Main.group [note "Words" ["x"] [("Word", "b")]; note "Words" ["y"] [("Word", "a")]] = Ok d /\
    Main.group [note "Words" ["y"] [("Word", "a")]; note "Words" ["x"] [("Word", "b")]] = Ok d' /\
    (forall t, assoc t d = assoc t d') /\
    Permutation (map fst d) (map fst d').
Proof.
  apply (buckets_do_not_depend_on_note_order _ _ [("b", ["x"]); ("a", ["y"])]).
  - repeat constructor.
  - apply perm_swap.
Defined.

End NoteOrder.

(** ** The sentence list as a set, and notes that lack a key *)

Section MissingKeys.
Import Py Run AnkiConnect Spec More.

Lemma ascending_nodup_same (l l' : list string) :
  ascending l -> ascending l' -> NoDup l -> NoDup l' ->
  (forall x, In x l <-> In x l') -> l = l'.
Proof.
  intros Ha Ha' Hn Hn' Hin. apply ascending_perm_eq; auto.
  now apply NoDup_Permutation.
Qed.

(** X7: the sentence list depends only on which strings the notes join
    to: notes in another order, or with a sentence repeated, give the same
    list and the same file. *)
Theorem sentences_depend_on_the_set_only
    (s1 s2 : list json) (f1 f2 : list (string * string * string * string * string))
    (fs : filesystem) :
  Forall2 five_fields s1 f1 ->
  Forall2 five_fields s2 f2 ->
  (forall x, In x (map joined f1) <-> In x (map joined f2)) ->
  Sentences.process s1 = Sentences.process s2 /\
  Sentences.process_and_store s1 fs = Sentences.process_and_store s2 fs.
Proof.
  intros H1 H2 Hin.
  assert (Hp : Sentences.process s1 = Sentences.process s2).
  { unfold Sentences.process.
    rewrite (concatenations_joined _ _ H1), (concatenations_joined _ _ H2).
    cbn [res_bind]. f_equal.
    apply ascending_nodup_same;
      auto using fromkeys_ascending, sorted_ascending, fromkeys_nodup.
    intros x. rewrite !fromkeys_in, !sorted_in. apply Hin. }
  split; [exact Hp|]. unfold Sentences.process_and_store. now rewrite Hp.
Qed.

(** X7 at work: the three example notes, and the same with the first one
    twice and in another order. *)
Lemma sentences_depend_on_the_set_only_witness :
  Sentences.process example_sentences
  = Sentences.process (rev example_sentences ++ [cloze_note ("b", "b", "", "", "")]).
Proof.
  apply (proj1 (sentences_depend_on_the_set_only
                  example_sentences
                  (rev example_sentences ++ [cloze_note ("b", "b", "", "", "")])
                  example_fields
                  (rev example_fields ++ [("b", "b", "", "", "")])
                  no_files
                  ltac:(repeat constructor) ltac:(repeat constructor)
                  ltac:(intros x; cbn; tauto))).
Defined.

Lemma add_words_app (l1 l2 : list json) (d : dict) :
  Main.add_words (l1 ++ l2) d = res_bind (Main.add_words l1 d) (Main.add_words l2).
Proof.
  revert d. induction l1 as [|n l1 IH]; intros d; [reflexivity|].
  cbn [app Main.add_words].
  destruct (dict_append "all" (Main.word_value n) d); cbn [res_bind]; try reflexivity.
  destruct (subscript n "tags"); cbn [res_bind]; try reflexivity.
  destruct (negb (truthy a0)).
  - destruct (dict_append "no-tag" (Main.word_value n) a); cbn [res_bind]; auto.
  - destruct (iter a0); cbn [res_bind]; try reflexivity.
    destruct (Main.add_tags n a1 a); cbn [res_bind]; auto.
Qed.

Lemma concatenations_app (l1 l2 : list json) :
  Sentences.concatenations (l1 ++ l2)
  = res_bind (Sentences.concatenations l1) (fun a =>
    res_bind (Sentences.concatenations l2) (fun b => Ok (a ++ b))).
Proof.
  induction l1 as [|n l1 IH]; cbn [app Sentences.concatenations res_bind].
  - now destruct (Sentences.concatenations l2).
  - destruct (Sentences.concatenation n); cbn [res_bind]; try reflexivity.
    rewrite IH. destruct (Sentences.concatenations l1); cbn [res_bind]; try reflexivity.
    now destruct (Sentences.concatenations l2).
Qed.

(** X8: grouping stops at the first note that lacks a key, with the
    [KeyError] of that key, and [words.txt] is not written: the notes before
    it carried their word and tags, the note has no ["fields"], or fields
    without ["Word"], or a word but no ["tags"]. *)
Theorem grouping_stops_at_a_missing_key
    (good rest : list json) (typed : list (string * list string))
    (m : list (string * json)) (fs : filesystem) :
  Forall2 (fun n wt => word_note n (fst wt) (snd wt)) good typed ->
  (assoc "fields" m = None ->
   Main.process_and_store (good ++ JObj m :: rest) fs = Raise (KeyError "fields")) /\
  (forall f, assoc "fields" m = Some (JObj f) -> assoc "Word" f = None ->
   Main.process_and_store (good ++ JObj m :: rest) fs = Raise (KeyError "Word")) /\
  (forall w, Main.word_value (JObj m) = Ok w -> assoc "tags" m = None ->
   Main.process_and_store (good ++ JObj m :: rest) fs = Raise (KeyError "tags")).
Proof.
  intros H.
  destruct (add_words_spec good typed H [("all", []); ("no-tag", [])])
    as (d & Hd & _ & Hk & _); try (simpl; congruence).
  assert (Hall : assoc "all" d <> None) by (apply Hk; cbn; congruence).
  unfold Main.process_and_store, Main.group. rewrite add_words_app, Hd.
  cbn [res_bind Main.add_words].
  unfold dict_append at 1 3 5. unfold dict_getitem.
  destruct (assoc "all" d) as [ws|]; [|congruence]. cbn [res_bind].
  split; [|split].
  - intros Hf. unfold Main.word_value, subscript. now rewrite Hf.
  - intros f Hf Hw. unfold Main.word_value, subscript. rewrite Hf. cbn [res_bind].
    now rewrite Hw.
  - intros w Hw Ht. rewrite Hw. cbn [res_bind]. unfold subscript. now rewrite Ht.
Qed.

(** X8 at work: a "Words" note without tags after a note in order. *)
Lemma grouping_stops_at_a_missing_key_witness :
  Main.process_and_store
    ([note "Words" [] [("Word", "b")]]
     ++ JObj [("modelName", JStr "Words");
              ("fields", JObj [("Word", JObj [("value", JStr "a")])])] :: [])
    no_files
  = Raise (KeyError "tags").
Proof.
  apply (proj2 (proj2 (grouping_stops_at_a_missing_key
                         [note "Words" [] [("Word", "b")]] [] [("b", [])] _ no_files
                         ltac:(repeat constructor)))
           "a"); reflexivity.
Defined.

Lemma field_value_missing (m f : list (string * json)) (name : string) :
  assoc "fields" m = Some (JObj f) -> assoc name f = None ->
  Sentences.field_value (JObj m) name = Raise (KeyError name).
Proof.
  intros Hf Hn. unfold Sentences.field_value, subscript. rewrite Hf. cbn [res_bind].
  now rewrite Hn.
Qed.

(** X9: a cloze note whose fields lack one of the five names makes
    [concatenation] raise the [KeyError] of the first name lacking, in the
    order the fields are joined, when the fields before it are texts; the
    sentence pipeline then stops at the first such note with that error and
    [sentences.txt] is not written. *)
Theorem sentences_stop_at_a_missing_field
    (good rest : list json) (fields : list (string * string * string * string * string))
    (m f : list (string * json)) (before : list string) (name : string)
    (after : list string) (fs : filesystem) :
  Forall2 five_fields good fields ->
  assoc "fields" m = Some (JObj f) ->
  five_names = before ++ name :: after ->
  Forall (fun k => exists s, Sentences.field_value (JObj m) k = Ok s) before ->
  assoc name f = None ->
  Sentences.concatenation (JObj m) = Raise (KeyError name) /\
  Sentences.process_and_store (good ++ JObj m :: rest) fs = Raise (KeyError name).
Proof.
  intros Hgood Hf Hnames Hbefore Hname.
  pose proof (field_value_missing m f name Hf Hname) as Hmiss.
  assert (Hc : Sentences.concatenation (JObj m) = Raise (KeyError name)).
  { unfold Sentences.concatenation, five_names in *.
    repeat match goal with
           | H : Forall _ (_ :: _) |- _ =>
               let s := fresh "s" in let Hs := fresh "Hs" in
               inversion H as [|? ? [s Hs] ?]; clear H; subst
           end.
    destruct before as [|b1 [|b2 [|b3 [|b4 [|b5 before]]]]];
      cbn [app] in Hnames; try discriminate Hnames; injection Hnames as <-;
      repeat match goal with
             | H : Forall _ (_ :: _) |- _ =>
                 let s := fresh "s" in let Hs := fresh "Hs" in
                 inversion H as [|? ? [s Hs] ?]; clear H; subst
             end;
      subst;
      repeat match goal with
             | H : Sentences.field_value _ _ = Ok _ |- _ => rewrite H; clear H
             end;
      cbn [res_bind]; try (rewrite Hmiss; reflexivity).
    destruct before; discriminate. }
  split; [exact Hc|].
  unfold Sentences.process_and_store, Sentences.process.
  rewrite concatenations_app, (concatenations_joined _ _ Hgood).
  cbn [res_bind Sentences.concatenations]. now rewrite Hc.
Qed.

(** X9 at work: a note with the first two fields only. *)
Lemma sentences_stop_at_a_missing_field_witness :
  Sentences.process_and_store
    (example_sentences
     ++ note "Custom Cloze" [] [("Words Before", "Ala "); ("Cloze Word", "ma")] :: [])
    no_files
  = Raise (KeyError "Words Between").
Proof.
  pose (f := [("Words Before", JObj [("value", JStr "Ala ")]);
              ("Cloze Word", JObj [("value", JStr "ma")])]).
  pose (m := [("modelName", JStr "Custom Cloze"); ("tags", JArr []); ("fields", JObj f)]).
  assert (H1 : Forall2 five_fields example_sentences example_fields)
    by repeat constructor.
  assert (H2 : Forall (fun k => exists s, Sentences.field_value (JObj m) k = Ok s)
                 ["Words Before"; "Cloze Word"])
    by (repeat constructor; eexists; reflexivity).
  exact (proj2 (sentences_stop_at_a_missing_field
                  example_sentences [] example_fields m f
                  ["Words Before"; "Cloze Word"] "Words Between"
                  ["Cloze Word Second Part"; "Words After"] no_files
                  H1 eq_refl eq_refl H2 eq_refl)).
Defined.

End MissingKeys.

(** ** [invoke] at its edges *)

Section InvokeEdges.
Import Py Run AnkiConnect Spec More.

(** X10: a decoded object with no truthy error and no [result] key makes
    [invoke] raise [KeyError('result')], and a decoded body that is not an
    object makes it raise [AttributeError]; neither is turned into one of
    the client's own errors, and neither is logged at error level. *)
Theorem invoke_on_malformed_bodies (E : env) (action : string) (params body : json) :
  replies E action params body ->
  (forall m, body = JObj m -> truthy (error_field m) = false ->
             assoc "result" m = None ->
             result_of (invoke E action params) = Raise (KeyError "result") /\
             emitted (log_of (invoke E action params)) = []) /\
  ((forall m, body <> JObj m) ->
   result_of (invoke E action params) = Raise AttributeError /\
   emitted (log_of (invoke E action params)) = []).
Proof.
  intros H. split.
  - intros m -> Hf Hr. rewrite (invoke_replies E _ _ _ H), Hf, Hr. split; reflexivity.
  - intros Hb. destruct H as (r & Hpost & Hstatus & Hjson).
    unfold invoke, bind, lift, logger, raise, try_except.
    rewrite Hpost, Hstatus, Hjson.
    destruct body; try (split; reflexivity).
    exfalso. eapply Hb. reflexivity.
Qed.

(** X10 at work: a body that is a list, and an empty object. *)
Lemma invoke_on_malformed_bodies_witness :
  result_of (invoke (always_replies (JArr [])) "findNotes" deck_request) = Raise AttributeError /\
  result_of (invoke (always_replies (JObj [])) "findNotes" deck_request)
  = Raise (KeyError "result").
Proof.
  split.
  - apply (proj2 (invoke_on_malformed_bodies _ _ _ _ (always_replies_replies _ _ _))).
    discriminate.
  - apply (proj1 (invoke_on_malformed_bodies _ _ _ _ (always_replies_replies _ _ _)) []);
      reflexivity.
Defined.

(** X11: an exception of the transport that is no [requests] exception
    passes through [invoke] as it is, with nothing logged at error level. *)
Theorem invoke_passes_foreign_exceptions
    (E : env) (action : string) (params : json) (e : exn) :
  transport_raises E action params e ->
  foreign e = true ->
  result_of (invoke E action params) = Raise e /\
  emitted (log_of (invoke E action params)) = [].
Proof.
  unfold invoke, bind, lift, logger, raise, try_except.
  intros [Hpost|(r & Hpost & [Hstatus|[Hstatus Hjson]])] Hf; rewrite Hpost;
    try rewrite Hstatus; try rewrite Hjson;
    destruct e; try discriminate Hf; split; reflexivity.
Qed.

(** X11 at work: a body that the JSON decoder refuses, with an old
    [requests] that raises [ValueError] for it. *)
Lemma invoke_passes_foreign_exceptions_witness :
  result_of (invoke (mk_env (fun _ _ => Ok (mk_response (Ok tt)
                                              (Raise (ValueError "Expecting value"))))
                            (fun _ => "?"))
               "findNotes" deck_request)
  = Raise (ValueError "Expecting value").
Proof.
  apply (invoke_passes_foreign_exceptions _ "findNotes" deck_request (ValueError "Expecting value")).
  - right. eexists. split; [reflexivity|]. right. split; reflexivity.
  - reflexivity.
Defined.

(** X12: what [invoke] lets through to the log at the configured level is
    nothing, or one error record; it is nothing when [invoke] returns a
    value, and with an error record [invoke] raises one of its own errors:
    a [RuntimeError] or the [ConnectionError] about Anki. *)
Theorem invoke_logs_an_error_only_when_it_raises
    (E : env) (action : string) (params : json) :
  (forall v, result_of (invoke E action params) = Ok v ->
             emitted (log_of (invoke E action params)) = []) /\
  (emitted (log_of (invoke E action params)) = [] \/
   exists msg,
     emitted (log_of (invoke E action params)) = [mk_record ERROR msg None] /\
     ((exists m, result_of (invoke E action params) = Raise (RuntimeError m)) \/
      result_of (invoke E action params)
      = Raise (ConnectionError
                 "Could not connect to AnkiConnect. Is Anki running with AnkiConnect addon installed?"))).
Proof.
  unfold invoke. split.
  - intros v. run_cases; cbn [emitted filter enabled levelname]; try reflexivity;
      discriminate.
  - run_cases; cbn [emitted filter enabled levelname]; auto;
      right; eexists; (split; [reflexivity|]); eauto.
Qed.

Lemma try_except_logger {A} (l : level) (msg : string) (k : M A) (h : exn -> M A) :
  try_except (bind (logger l msg) (fun _ => k)) h
  = (mk_record l msg None :: log_of (try_except k h), result_of (try_except k h)).
Proof. apply (try_except_bind_ok (logger l msg) (fun _ => k) h _ tt eq_refl). Qed.

(** X13: [params or {}]: a call with [None], or any other falsy params,
    sends the request of a call with the empty dict, so it returns or raises
    the same and logs the same at the configured level. *)
Theorem invoke_falsy_params (E : env) (action : string) (params : json) :
  truthy params = false ->
  request action params = request action (JObj []) /\
  result_of (invoke E action params) = result_of (invoke E action (JObj [])) /\
  emitted (log_of (invoke E action params)) = emitted (log_of (invoke E action (JObj []))).
Proof.
  intros H.
  assert (Hr : request action params = request action (JObj []))
    by (unfold request; now rewrite H).
  split; [exact Hr|].
  unfold invoke. rewrite !try_except_logger, Hr. split; reflexivity.
Qed.

(** X13 at work: a call without params. *)
Lemma invoke_falsy_params_witness :
  request "version" JNull = request "version" (JObj []).
Proof. apply (invoke_falsy_params (always_replies JNull) "version" JNull eq_refl). Defined.

(** X14: [get_note_info] takes the length of its argument for the debug
    record before it sends anything: on [None], a [bool], an [int] or a
    [float] it raises [TypeError], whatever the server would answer, and
    logs nothing. *)
Theorem get_note_info_of_unsized (E : env) (note_ids : json) :
  has_len note_ids = false -> get_note_info E note_ids = ([], Raise TypeError).
Proof. destruct note_ids; try discriminate; reflexivity. Qed.

(** X14 at work: a single id in place of the list of ids. *)
Lemma get_note_info_of_unsized_witness :
  get_note_info world_other_model (JInt 7) = ([], Raise TypeError).
Proof. apply (get_note_info_of_unsized world_other_model (JInt 7) eq_refl). Defined.

End InvokeEdges.

(** ** Failures inside the fetch *)

Section FetchFailures.
Import Py Run AnkiConnect Spec More.

Lemma invoke_raises_split (E : env) (action : string) (params : json) (e : exn) :
  call_raises E action params e ->
  exists l, invoke E action params = (l, Raise e).
Proof.
  unfold call_raises, result_of. destruct (invoke E action params) as [l r].
  cbn [snd]. intros ->. now exists l.
Qed.

Lemma get_words_fetch_raises (E : env) (e : exn) :
  fetch_raises E e ->
  exists log, Main.get_words E = (log, Ok None) /\ In (fetch_error e) log.
Proof.
  intros [H|[[(t & Ht & Hc) H]|[(t & Ht & Hc) (id & ids & Hd & H)]]];
    apply invoke_raises_split in H; destruct H as [l Hl].
  - unfold templates_request in Hl.
    unfold Main.get_words, get_model_templates. rewrite Hl. run_step.
    eexists. split; [reflexivity|].
    find_record.
  - unfold templates_request in Ht. unfold deck_request in Hl.
    destruct (index_contains _ _ Hc) as [i Hi].
    unfold Main.get_words, get_model_templates, find_notes.
    rewrite (invoke_answers _ _ _ _ Ht). run_step. rewrite Hc, Hi. run_step.
    rewrite Hl. run_step.
    eexists. split; [reflexivity|].
    find_record.
  - unfold templates_request in Ht. unfold deck_request in Hd. unfold notes_request in Hl.
    destruct (index_contains _ _ Hc) as [i Hi].
    unfold Main.get_words, get_model_templates, find_notes, get_note_info.
    rewrite (invoke_answers _ _ _ _ Ht). run_step. rewrite Hc, Hi. run_step.
    rewrite (invoke_answers _ _ _ _ Hd). run_step. rewrite Hl. run_step.
    eexists. split; [reflexivity|].
    find_record.
Qed.

(** X15: whatever exception a stage of the fetch raises (the template
    query, the deck query, the note query; an ApiError, a RequestFailed or
    any other), [get_words] catches it, logs it at error level with the
    exception attached and returns [None]; the script then calls [exit(0)]
    and changes no file. *)
Theorem fetch_swallows_every_exception (E : env) (e : exn) (fs : filesystem) :
  fetch_raises E e ->
  result_of (Main.get_words E) = Ok None /\
  In (fetch_error e) (log_of (Main.get_words E)) /\
  In (fetch_error e) (emitted (fst (Main.main E fs))) /\
  snd (Main.main E fs) = (SystemExit 0, fs).
Proof.
  intros H. destruct (get_words_fetch_raises E e H) as (log & Hg & Hin).
  rewrite (main_no_words E fs log Hg), Hg. cbn [fst snd result_of log_of].
  repeat split; [assumption|].
  unfold emitted. apply filter_In. split; [|reflexivity].
  right. apply in_or_app. now left.
Qed.

Lemma world_api_error_raises :
  fetch_raises world_api_error (RuntimeError "AnkiConnect error: collection is not available").
Proof.
  left. unfold call_raises.
  rewrite (invoke_replies world_api_error _ _ _ (always_replies_replies _ _ _)).
  reflexivity.
Qed.

(** X15 at work: the server answers with an error message. *)
Lemma fetch_swallows_every_exception_witness :
  snd (Main.main world_api_error no_files) = (SystemExit 0, no_files).
Proof.
  apply (fetch_swallows_every_exception world_api_error _ no_files world_api_error_raises).
Defined.

Lemma select_model_app (model : string) (l1 l2 : list json) :
  select_model model (l1 ++ l2)
  = res_bind (select_model model l1) (fun a =>
    res_bind (select_model model l2) (fun b => Ok (a ++ b))).
Proof.
  induction l1 as [|n l1 IH]; cbn [app select_model res_bind].
  - now destruct (select_model model l2).
  - destruct (subscript n "modelName"); cbn [res_bind]; try reflexivity.
    rewrite IH. destruct (select_model model l1); cbn [res_bind]; try reflexivity.
    destruct (select_model model l2); cbn [res_bind]; try reflexivity.
    now destruct (eq_str a model).
Qed.

Lemma select_model_missing_name (model : string) (good rest : list json)
    (m : list (string * json)) :
  Forall (fun n => exists v, subscript n "modelName" = Ok v) good ->
  assoc "modelName" m = None ->
  select_model model (good ++ JObj m :: rest) = Raise (KeyError "modelName").
Proof.
  intros Hgood Hm. rewrite select_model_app.
  rewrite (select_model_filter model good) by (now apply Forall_forall).
  cbn [res_bind select_model subscript]. now rewrite Hm.
Qed.

(** X16: one fetched note without a ["modelName"] voids the whole fetch:
    with the template found and the notes fetched, [get_words] logs
    [KeyError('modelName')] at error level and returns [None], whatever the
    other notes are, and the script exits with status 0 and no file
    written. *)
Theorem a_note_without_model_name_voids_the_fetch
    (E : env) (id : json) (ids good rest : list json) (m : list (string * json))
    (fs : filesystem) :
  template_present E ->
  answers E "findNotes" deck_request (JArr (id :: ids)) ->
  answers E "notesInfo" (notes_request (JArr (id :: ids))) (JArr (good ++ JObj m :: rest)) ->
  Forall (fun n => exists v, subscript n "modelName" = Ok v) good ->
  assoc "modelName" m = None ->
  result_of (Main.get_words E) = Ok None /\
  In (fetch_error (KeyError "modelName")) (log_of (Main.get_words E)) /\
  snd (Main.main E fs) = (SystemExit 0, fs).
Proof.
  intros (t & Ht & Hc) Hd Hn Hgood Hm.
  unfold templates_request in Ht. unfold deck_request in Hd. unfold notes_request in Hn.
  destruct (index_contains _ _ Hc) as [i Hi].
  assert (Hg : exists log, Main.get_words E = (log, Ok None)
                           /\ In (fetch_error (KeyError "modelName")) log).
  { unfold Main.get_words, get_model_templates, find_notes, get_note_info.
    rewrite (invoke_answers _ _ _ _ Ht). run_step. rewrite Hc, Hi. run_step.
    rewrite (invoke_answers _ _ _ _ Hd). run_step.
    rewrite (invoke_answers _ _ _ _ Hn). run_step.
    rewrite (select_model_missing_name _ _ _ _ Hgood Hm). run_step.
    eexists. split; [reflexivity|]. cbn. auto 20. }
  destruct Hg as (log & Hg & Hin).
  rewrite (main_no_words E fs log Hg), Hg. cbn [fst snd result_of log_of]. auto.
Qed.

(** X16 at work: a "Words" note followed by an empty note. *)
Lemma a_note_without_model_name_voids_the_fetch_witness :
  result_of (Main.get_words world_broken_note) = Ok None.
Proof.
  apply (a_note_without_model_name_voids_the_fetch
           world_broken_note (JInt 7) [JInt 8] [note "Words" [] [("Word", "b")]] [] []
           no_files).
  - eexists. split; [apply scripted_answers; reflexivity|reflexivity].
  - apply scripted_answers. reflexivity.
  - apply scripted_answers. reflexivity.
  - repeat constructor. eexists. reflexivity.
  - reflexivity.
Defined.

End FetchFailures.

(** ** The scripts from the requests to the file *)

Section EndToEnd.
Import Py Run AnkiConnect Spec More.

Lemma answers_agree (E1 E2 : env) (action : string) (params payload : json) :
  post E1 ANKI_CONNECT_URL (request action params)
  = post E2 ANKI_CONNECT_URL (request action params) ->
  answers E1 action params payload -> answers E2 action params payload.
Proof.
  intros Hp (m & (r & H1 & H2 & H3) & Hf & Hr).
  exists m. split; [|auto]. exists r. rewrite <- Hp. auto.
Qed.

(** X17: the requests are made in order and only as far as needed: when
    the template is missing, the deck and note queries are not made, so
    worlds that answer the template query alike give the same fetch; when
    the deck query gives no id, the note query is not made. *)
Theorem fetch_stops_asking_when_it_can (E1 E2 : env) :
  repr E1 = repr E2 ->
  post E1 ANKI_CONNECT_URL (request "modelTemplates" templates_request)
  = post E2 ANKI_CONNECT_URL (request "modelTemplates" templates_request) ->
  (template_missing E1 -> Main.get_words E1 = Main.get_words E2) /\
  (post E1 ANKI_CONNECT_URL (request "findNotes" deck_request)
   = post E2 ANKI_CONNECT_URL (request "findNotes" deck_request) ->
   deck_empty E1 -> Main.get_words E1 = Main.get_words E2).
Proof.
  intros Hrepr Ht. split.
  - intros (t & H1 & Hc). pose proof (answers_agree _ _ _ _ _ Ht H1) as H2.
    unfold templates_request in H1, H2.
    unfold Main.get_words, get_model_templates.
    rewrite (invoke_answers _ _ _ _ H1), (invoke_answers _ _ _ _ H2). run_step.
    rewrite Hc. run_step. unfold str. now rewrite Hrepr.
  - intros Hd [(t & H1 & Hc) D1].
    pose proof (answers_agree _ _ _ _ _ Ht H1) as H2.
    pose proof (answers_agree _ _ _ _ _ Hd D1) as D2.
    unfold templates_request in H1, H2. unfold deck_request in D1, D2.
    destruct (index_contains _ _ Hc) as [i Hi].
    unfold Main.get_words, get_model_templates, find_notes.
    rewrite (invoke_answers _ _ _ _ H1), (invoke_answers _ _ _ _ H2). run_step.
    rewrite Hc, Hi. run_step.
    rewrite (invoke_answers _ _ _ _ D1), (invoke_answers _ _ _ _ D2). run_step.
    unfold str. now rewrite Hrepr.
Qed.

(** X17 at work: a world without the template, and the same world with a
    deck of notes behind it. *)
Lemma fetch_stops_asking_when_it_can_witness :
  Main.get_words world_without_template
  = Main.get_words
      (scripted [("modelTemplates", JObj [("Card 1", JStr "{{Front}}")]);
                 ("findNotes", JArr [JInt 7]);
                 ("notesInfo", JArr example_notes)]).
Proof.
  apply (proj1 (fetch_stops_asking_when_it_can world_without_template _ eq_refl eq_refl)).
  eexists. split; [apply scripted_answers; reflexivity|reflexivity].
Defined.

Lemma get_words_fetches (E : env) (id : json) (ids notes : list json) :
  fetches E id ids notes ->
  exists log,
    Main.get_words E
    = (log, match filter (has_model "Words") notes with
            | [] => Ok None
            | kept => Ok (Some kept)
            end) /\
    no_error_record log.
Proof.
  intros ((t & Ht & Hc) & Hd & Hn & Hm).
  unfold templates_request in Ht. unfold deck_request in Hd. unfold notes_request in Hn.
  destruct (index_contains _ _ Hc) as [i Hi].
  unfold Main.get_words, get_model_templates, find_notes, get_note_info.
  rewrite (invoke_answers _ _ _ _ Ht). run_step. rewrite Hc, Hi. run_step.
  rewrite (invoke_answers _ _ _ _ Hd). run_step.
  rewrite (invoke_answers _ _ _ _ Hn). run_step.
  rewrite (select_model_filter "Words" notes) by (now apply Forall_forall).
  destruct (filter (has_model "Words") notes); run_step;
    (eexists; split; [reflexivity|repeat constructor; discriminate]).
Qed.

(** X18: when the template is found and the queries answer, [get_words]
    returns exactly the fetched notes whose model name is "Words", in the
    order fetched, with nothing logged at error level; and if each of them
    carries a word and tags the script runs to its end and [words.txt]
    holds the blocks of "all", "no-tag" and the tags in first-met order,
    each with its sorted entries. *)
Theorem word_script_end_to_end
    (E : env) (id : json) (ids notes : list json) (n : json) (kept : list json)
    (typed : list (string * list string)) (fs : filesystem) :
  fetches E id ids notes ->
  filter (has_model "Words") notes = n :: kept ->
  Forall2 (fun n wt => word_note n (fst wt) (snd wt)) (n :: kept) typed ->
  result_of (Main.get_words E) = Ok (Some (n :: kept)) /\
  no_error_record (log_of (Main.get_words E)) /\
  fst (snd (Main.main E fs)) = Finished /\
  read_file "words.txt" (snd (snd (Main.main E fs)))
  = Some (String.concat ""
            (map (fun t => block t (sorted (flat_map (entries t) typed)))
                 (fromkeys ("all" :: "no-tag" :: tags_in_order typed)))).
Proof.
  intros Hf Hk Ht.
  destruct (get_words_fetches E id ids notes Hf) as (log & Hg & Hlog).
  rewrite Hk in Hg.
  destruct (group_keys_and_buckets _ _ fs Ht) as (_ & _ & fs' & Hp & Hread).
  unfold Main.main. rewrite Hg. run_step. rewrite Hp. cbn [fst snd].
  repeat split; try assumption.
  rewrite Hread, map_map. reflexivity.
Qed.

(** X18 at work: the three notes of the grouping example behind a scripted
    server. *)
Lemma word_script_end_to_end_witness :
  read_file "words.txt" (snd (snd (Main.main world_word_first no_files)))
  = Some ("all:" ++ LF ++ "a, b" ++ LF ++ LF
          ++ "no-tag:" ++ LF ++ "b" ++ LF ++ LF
          ++ "noun:" ++ LF ++ "a" ++ LF ++ LF)%string.
Proof.
  assert (Hf : fetches world_word_first (JInt 7) [JInt 8] example_notes).
  { split; [eexists; split; [apply scripted_answers; reflexivity|reflexivity]|].
    split; [apply scripted_answers; reflexivity|].
    split; [apply scripted_answers; reflexivity|].
    repeat constructor; eexists; reflexivity. }
  exact (proj2 (proj2 (proj2
           (word_script_end_to_end world_word_first (JInt 7) [JInt 8] example_notes
              _ _ [("b", []); ("a", ["noun"])] no_files Hf eq_refl
              ltac:(repeat constructor))))).
Defined.

End EndToEnd.

(** ** The sentence script from the requests to the file *)

Section SentencesEndToEnd.
Import Py Run AnkiConnect Spec More.

Lemma get_sentences_fetches (E : env) (id : json) (ids notes : list json) :
  fetches_cloze E id ids notes ->
  exists log,
    Sentences.get_sentences E
    = (log, match filter (has_model "Custom Cloze") notes with
            | [] => Ok None
            | kept => Ok (Some kept)
            end) /\
    no_error_record log.
Proof.
  intros ((t & Ht & Hc) & Hd & Hn & Hm).
  unfold cloze_templates_request in Ht. unfold deck_request in Hd.
  unfold notes_request in Hn.
  destruct (index_contains _ _ Hc) as [i Hi].
  unfold Sentences.get_sentences, get_model_templates, find_notes, get_note_info.
  rewrite (invoke_answers _ _ _ _ Ht). run_step. rewrite Hc, Hi. run_step.
  rewrite (invoke_answers _ _ _ _ Hd). run_step.
  rewrite (invoke_answers _ _ _ _ Hn). run_step.
  rewrite (select_model_filter "Custom Cloze" notes) by (now apply Forall_forall).
  destruct (filter (has_model "Custom Cloze") notes); run_step;
    (eexists; split; [reflexivity|repeat constructor; discriminate]).
Qed.

(** X19: when the "Fill Blank" template is found and the queries answer,
    [get_sentences] returns exactly the fetched notes whose model name is
    "Custom Cloze", in the order fetched; and if each carries the five
    fields the script runs to its end and [sentences.txt] holds, one to a
    line, the joined strings in ascending order, each once. *)
Theorem sentence_script_end_to_end
    (E : env) (id : json) (ids notes : list json) (n : json) (kept : list json)
    (fields : list (string * string * string * string * string)) (fs : filesystem) :
  fetches_cloze E id ids notes ->
  filter (has_model "Custom Cloze") notes = n :: kept ->
  Forall2 five_fields (n :: kept) fields ->
  result_of (Sentences.get_sentences E) = Ok (Some (n :: kept)) /\
  fst (snd (Sentences.main E fs)) = Finished /\
  read_file "sentences.txt" (snd (snd (Sentences.main E fs)))
  = Some (String.concat ""
            (map (fun s => s ++ LF)%string (fromkeys (sorted (map joined fields))))).
Proof.
  intros Hf Hk Ht.
  destruct (get_sentences_fetches E id ids notes Hf) as (log & Hg & Hlog).
  rewrite Hk in Hg.
  unfold Sentences.main, Sentences.process_and_store, Sentences.process.
  rewrite Hg. run_step. rewrite (concatenations_joined _ _ Ht). cbn [res_bind fst snd].
  repeat split.
  unfold Sentences.store. now rewrite read_write_file, write_lines_lines.
Qed.

(** X19 at work: three cloze notes and a word note behind a scripted
    server; the file holds aa and bb. *)
Lemma sentence_script_end_to_end_witness :
  read_file "sentences.txt" (snd (snd (Sentences.main world_cloze no_files)))
  = Some ("aa" ++ LF ++ "bb" ++ LF)%string.
Proof.
  assert (Hf : fetches_cloze world_cloze (JInt 1) [JInt 2; JInt 3; JInt 4]
                 (note "Words" [] [("Word", "z")] :: example_sentences)).
  { split; [eexists; split; [apply scripted_answers; reflexivity|reflexivity]|].
    split; [apply scripted_answers; reflexivity|].
    split; [apply scripted_answers; reflexivity|].
    repeat constructor; eexists; reflexivity. }
  exact (proj2 (proj2
           (sentence_script_end_to_end world_cloze (JInt 1) [JInt 2; JInt 3; JInt 4]
              _ _ _ example_fields no_files Hf eq_refl ltac:(repeat constructor)))).
Defined.

Lemma sentences_main_no_sentences (E : env) (fs : filesystem) (log : list record) :
  Sentences.get_sentences E = (log, Ok None) ->
  Sentences.main E fs =
  (mk_record INFO "=== Starting Anki Fetch ===" None
   :: log ++ [mk_record INFO "=== End of Anki Fetch ===" None;
              mk_record WARNING "No sentences were retrieved from Anki." None],
   (SystemExit 0, fs)).
Proof.
  intros H. unfold Sentences.main. rewrite H. run_step.
  now rewrite <- app_assoc.
Qed.

(** X20: the sentence script without data: when the "Fill Blank" template
    is missing it warns, when no request reaches the endpoint it logs the
    [ConnectionError] at error level; either way [get_sentences] returns
    [None] and the script warns, calls [exit(0)] and changes no file. *)
Theorem sentence_script_without_data (E : env) (fs : filesystem) :
  (cloze_template_missing E ->
   result_of (Sentences.get_sentences E) = Ok None /\
   no_error_record (fst (Sentences.main E fs)) /\
   warned (log_of (Sentences.get_sentences E))
     "'Fill Blank' template not found in the 'Sentences' model" /\
   snd (Sentences.main E fs) = (SystemExit 0, fs)) /\
  (unreachable E ->
   result_of (Sentences.get_sentences E) = Ok None /\
   In (fetch_error
         (ConnectionError
            "Could not connect to AnkiConnect. Is Anki running with AnkiConnect addon installed?"))
      (emitted (fst (Sentences.main E fs))) /\
   warned (fst (Sentences.main E fs)) "No sentences were retrieved from Anki." /\
   snd (Sentences.main E fs) = (SystemExit 0, fs)).
Proof.
  split.
  - intros (t & Ht & Hc). unfold cloze_templates_request in Ht.
    assert (Hg : exists log,
               Sentences.get_sentences E = (log, Ok None) /\ no_error_record log /\
               warned log "'Fill Blank' template not found in the 'Sentences' model").
    { unfold Sentences.get_sentences, get_model_templates.
      rewrite (invoke_answers _ _ _ _ Ht). run_step. rewrite Hc. run_step.
      eexists. split; [reflexivity|]. split; [repeat constructor; discriminate|].
      cbn. auto. }
    destruct Hg as (log & Hg & Hne & Hw).
    rewrite (sentences_main_no_sentences E fs log Hg), Hg.
    cbn [fst snd result_of log_of]. repeat split; try assumption.
    constructor; [discriminate|].
    apply no_error_record_app; [assumption|repeat constructor; discriminate].
  - intros H.
    destruct (H ANKI_CONNECT_URL (request "modelTemplates" cloze_templates_request))
      as [msg Hmsg].
    pose proof (invoke_connection_error E "modelTemplates" cloze_templates_request msg
                  (or_introl Hmsg)) as Hi.
    unfold cloze_templates_request in Hi.
    assert (Hg : exists log,
               Sentences.get_sentences E = (log, Ok None) /\
               In (fetch_error
                     (ConnectionError
                        "Could not connect to AnkiConnect. Is Anki running with AnkiConnect addon installed?"))
                  (emitted log)).
    { unfold Sentences.get_sentences, get_model_templates. rewrite Hi. run_step.
      eexists. split; [reflexivity|]. cbn. auto 10. }
    destruct Hg as (log & Hg & Hin).
    rewrite (sentences_main_no_sentences E fs log Hg), Hg.
    cbn [fst snd result_of log_of]. repeat split.
    + unfold emitted in *. cbn [filter enabled levelname]. right.
      rewrite filter_app. apply in_or_app. now left.
    + unfold warned, emitted. cbn [filter enabled levelname]. right.
      rewrite filter_app. apply in_or_app. right. cbn. auto.
Qed.

(** X20 at work: the world where every connection is refused. *)
Lemma sentence_script_without_data_witness :
  snd (Sentences.main world_down no_files) = (SystemExit 0, no_files).
Proof.
  apply (proj2 (sentence_script_without_data world_down no_files) world_down_unreachable).
Defined.

End SentencesEndToEnd.
